(** * A shallow embedding of the Kalshi trading assistant

    The development follows the Python modules of the repository
    (monitoring3.py only wraps [logging] and has no counterpart here):

    - [Py]        the fragment of Python the program relies on: exceptions,
                  JSON documents, truthiness, strings, IEEE doubles and the
                  mixed int/float comparisons;
    - [Effects]   requests, log records and page writes as a trace;
    - [Datetime]  aware and naive datetimes, and an ISO 8601 reader;
    - [Api]       api3.py: [fetch_event_data], [fetch_hourly_markets] with its
                  inner [is_hourly], and [place_trade];
    - [Bot]       bot3.py: the [KalshiBot] thresholds and its two decisions;
    - [Assistant] assistant3.py: the session state, [update_candles],
                  [update_pnl], [auto_trade_logic] and one run of the script;
    - [Spec]      the predicates the statements are phrased with;
    - [Examples]  the concrete inputs of the examples.

    Definitions come first, the statements about them afterwards. *)

From Stdlib Require Import ZArith QArith_base Bool List String Ascii Lia.
From Stdlib Require Import Floats.SpecFloat Floats.PrimFloat Floats.FloatOps.
From stdpp Require Import base option gmap strings.

Local Close Scope Q_scope.
Local Open Scope string_scope.
Local Open Scope Z_scope.
Local Open Scope list_scope.
Import ListNotations.

Set Warnings "-inexact-float,-register-all".

(* ===================================================================== *)
(** * Python values                                                       *)
(* ===================================================================== *)

Module Py.

(** The exception classes that the three modules can raise or receive from
    [requests], [json] and [datetime]. *)
Inductive exn : Type :=
  | ConnectionError      (* requests: no response was received *)
  | Timeout              (* requests: the 10 s timeout elapsed *)
  | HTTPError            (* raise_for_status on a 4xx/5xx response *)
  | JSONDecodeError      (* resp.json() on a body that is not JSON *)
  | ValueError
  | TypeError
  | AttributeError
  | UnboundLocalError
  | OverflowError.

(** [except ValueError] also catches the subclasses of [ValueError]. *)
Definition is_ValueError (e : exn) : bool :=
  match e with
  | ValueError | JSONDecodeError => true
  | _ => false
  end.

(** Every class above derives from [Exception]. *)
Definition is_Exception (e : exn) : bool := true.

(** The outcome of evaluating a Python expression or call. *)
Inductive result (A : Type) : Type :=
  | Returned (a : A)
  | Raised (e : exn).
Arguments Returned {A} a.
Arguments Raised {A} e.

#[export] Instance result_ret : MRet result := @Returned.
#[export] Instance result_bind : MBind result := fun A B f m =>
  match m with
  | Returned a => f a
  | Raised e => Raised e
  end.

(** ** IEEE 754 binary64, the Python [float] *)

Definition float : Type := spec_float.

Definition fmul : float -> float -> float := SFmul prec emax.
Definition fneg : float -> float := SFopp.

(** The double nearest to a decimal literal, as the Python parser and
    [json.loads] produce it. *)
Definition lit (f : PrimFloat.float) : float := Prim2SF f.

(** [float(n)] for an integer [n] (round to nearest, ties to even). *)
Definition float_of_Z (n : Z) : float := binary_normalize prec emax n 0 false.

Definition is_nan (f : float) : bool :=
  match f with S754_nan => true | _ => false end.

(** [int(f)]: truncation toward zero; [inf] and [nan] raise. *)
Definition int_of_float (f : float) : result Z :=
  match f with
  | S754_zero _ => Returned 0
  | S754_finite s m e =>
      let a := if 0 <=? e then Z.pos m * 2 ^ e else Z.pos m / 2 ^ (- e) in
      Returned (if s then - a else a)
  | S754_infinity _ => Raised OverflowError
  | S754_nan => Raised ValueError
  end.

(** ** Numbers: Python compares and multiplies [int] and [float] freely *)

Inductive number : Type :=
  | NInt (z : Z)
  | NFloat (f : float).

(** Exact comparison of an [int] with a [float], as CPython's
    [float_richcompare] does it (no rounding of the integer). *)
Definition Z_SF_compare (a : Z) (f : float) : option comparison :=
  match f with
  | S754_nan => None
  | S754_infinity s => Some (if s then Gt else Lt)
  | S754_zero _ => Some (a ?= 0)
  | S754_finite s m e =>
      let v := if s then Z.neg m else Z.pos m in
      Some (if 0 <=? e then a ?= v * 2 ^ e else a * 2 ^ (- e) ?= v)
  end.

Definition num_compare (a b : number) : option comparison :=
  match a, b with
  | NInt x, NInt y => Some (x ?= y)
  | NFloat x, NFloat y => SFcompare x y
  | NInt x, NFloat y => Z_SF_compare x y
  | NFloat x, NInt y => option_map CompOpp (Z_SF_compare y x)
  end.

(** [a <= b], [a < b], [a >= b]: false whenever a NaN is involved. *)
Definition num_le (a b : number) : bool :=
  match num_compare a b with Some (Lt | Eq) => true | _ => false end.
Definition num_lt (a b : number) : bool :=
  match num_compare a b with Some Lt => true | _ => false end.
Definition num_ge (a b : number) : bool := num_le b a.

(** Unary minus. *)
Definition num_neg (a : number) : number :=
  match a with
  | NInt z => NInt (- z)
  | NFloat f => NFloat (fneg f)
  end.

(** [a * k] for an integer literal [k]: exact on an [int], a rounded
    double product on a [float] ([k] is converted to a double first). *)
Definition num_mul_int (a : number) (k : Z) : number :=
  match a with
  | NInt z => NInt (z * k)
  | NFloat f => NFloat (fmul f (float_of_Z k))
  end.

(** [int(a)]. *)
Definition py_int (a : number) : result Z :=
  match a with
  | NInt z => Returned z
  | NFloat f => int_of_float f
  end.

(** ** JSON documents as [json.loads] and [resp.json()] build them *)

Inductive json : Type :=
  | JNull                                   (* None *)
  | JBool (b : bool)
  | JInt (z : Z)
  | JFloat (f : float)
  | JStr (s : string)
  | JList (l : list json)
  | JDict (kv : list (string * json)).      (* bindings, keys distinct *)

(** A Python dict of JSON values: the bindings behind [JDict]. *)
Definition dict : Type := list (string * json).

Fixpoint lookup_key (key : string) (kv : dict) : option json :=
  match kv with
  | [] => None
  | (k, v) :: rest => if String.eqb k key then Some v else lookup_key key rest
  end.

(** [key in d]. *)
Definition dict_contains (key : string) (kv : dict) : bool :=
  match lookup_key key kv with Some _ => true | None => false end.

(** [d.get(key, default)] on a dict. *)
Definition dict_get (kv : dict) (key : string) (default : json) : json :=
  match lookup_key key kv with Some v => v | None => default end.

(** [v.get(key, default)] on any value: only a dict has the method. *)
Definition py_get (v : json) (key : string) (default : json) : result json :=
  match v with
  | JDict kv => Returned (dict_get kv key default)
  | _ => Raised AttributeError
  end.

(** Truth value testing: [if v], [not v]. *)
Definition truthy (v : json) : bool :=
  match v with
  | JNull => false
  | JBool b => b
  | JInt z => negb (z =? 0)
  | JFloat f => match f with S754_zero _ => false | _ => true end
  | JStr s => negb (String.eqb s "")
  | JList l => match l with [] => false | _ => true end
  | JDict kv => match kv with [] => false | _ => true end
  end.

(** [v is None]. *)
Definition is_None (v : json) : bool :=
  match v with JNull => true | _ => false end.

(** The numeric reading of a value; [bool] is a subclass of [int]. *)
Definition as_number (v : json) : option number :=
  match v with
  | JInt z => Some (NInt z)
  | JFloat f => Some (NFloat f)
  | JBool b => Some (NInt (if b then 1 else 0))
  | _ => None
  end.

(** [for x in v]: the items a [for] loop visits. *)
Definition py_iter (v : json) : result (list json) :=
  match v with
  | JList l => Returned l
  | JDict kv => Returned (map (fun p => JStr (fst p)) kv)
  | JStr s => Returned (map (fun c => JStr (String c EmptyString)) (list_ascii_of_string s))
  | _ => Raised TypeError
  end.

(** ** Strings *)

Definition lower_char (c : ascii) : ascii :=
  let n := N_of_ascii c in
  if ((65 <=? n) && (n <=? 90))%N then ascii_of_N (n + 32) else c.

(** [s.lower()]. Strings are UTF-8 byte strings here and only the ASCII
    capitals are mapped; the program only compares the outcome with the
    ASCII word "finalized", which no other capital letter maps into. *)
Fixpoint str_lower (s : string) : string :=
  match s with
  | EmptyString => EmptyString
  | String c rest => String (lower_char c) (str_lower rest)
  end.

(** [s.replace(old, new)] for a pattern [old] of one character. *)
Fixpoint str_replace (old : ascii) (new : string) (s : string) : string :=
  match s with
  | EmptyString => EmptyString
  | String c rest =>
      if Ascii.eqb c old then String.append new (str_replace old new rest)
      else String c (str_replace old new rest)
  end.

(** [v.lower()] and [v.replace(old, new)] on any value: [str] methods. *)
Definition py_lower (v : json) : result string :=
  match v with
  | JStr s => Returned (str_lower s)
  | _ => Raised AttributeError
  end.

Definition py_replace (v : json) (old : ascii) (new : string) : result string :=
  match v with
  | JStr s => Returned (str_replace old new s)
  | _ => Raised AttributeError
  end.

End Py.

(* ===================================================================== *)
(** * Effects: the trace of what a call does to the outside world         *)
(* ===================================================================== *)

Module Effects.
Import Py.

(** The JSON body of a POST to /portfolio/orders, field by field. *)
Record order : Type := Order {
  action : string;
  client_order_id : string;
  count : Z;
  sell_position_floor : Z;
  side : string;
  ticker : string;
  type : string;
  yes_price : Z;
  no_price : Z
}.

(** What [requests] hands back: [raise_for_status], [json()] and [text]. *)
Record response : Type := Response {
  status_error : bool;          (* the status is 4xx/5xx *)
  body : result json;           (* what resp.json() returns or raises *)
  text : string
}.

(** A request either raises before any response exists (connection error,
    timeout, retries exhausted) or yields a response object. *)
Inductive http_outcome : Type :=
  | NoResponse (e : exn)
  | Answered (r : response).

Inductive level : Type := WARNING | ERROR.

(** The log records of api3.py, with their arguments. *)
Inductive message : Type :=
  | MsgFetched (series : string) (events : nat) (nested : bool)
  | MsgFetchError (series : string) (e : exn)
  | MsgHourly (series : string) (markets : nat) (hours : Z)
  | MsgOrderPlaced (doc : json)
  | MsgOrderError (ticker : string) (e : exn)
  | MsgResponseText (text : string).

(** The lines assistant3.py writes to the page from [auto_trade_logic]. *)
Inductive ui_line : Type :=
  | ProfitGoalReached
  | MaxDrawdownReached
  | NoAction (ticker yes_bid no_bid : json)
  | PlacingOrder (ticker : json) (side : string) (price : number)
  | OrderPlacedOk (doc : json)
  | OrderFailed (ticker : json).

Inductive event : Type :=
  | EvGet (series_ticker : string) (with_nested_markets : bool)
  | EvPost (payload : order)
  | EvLog (lvl : level) (msg : message)
  | EvWrite (line : ui_line).

(** A computation: the events it performed, then its value or the
    exception that escaped it. *)
Definition io (A : Type) : Type := (list event * result A)%type.

#[export] Instance io_ret : MRet io := fun A a => ([], Returned a).
#[export] Instance io_bind : MBind io := fun A B f m =>
  match m with
  | (t, Returned a) => let '(t', r) := f a in (t ++ t', r)
  | (t, Raised e) => (t, Raised e)
  end.

Definition emit (ev : event) : io unit := ([ev], Returned tt).
Definition raise {A} (e : exn) : io A := ([], Raised e).
Definition lift {A} (r : result A) : io A := ([], r).

(** [try: body except <catches> as e: handler e]. *)
Definition try_except {A} (body : io A) (catches : exn -> bool)
    (handler : exn -> io A) : io A :=
  match body with
  | (t, Raised e) =>
      if catches e then let '(t', r) := handler e in (t ++ t', r)
      else (t, Raised e)
  | done => done
  end.

(** Reading a local variable that may not have been assigned yet. *)
Definition read_local {A} (x : option A) : io A :=
  match x with
  | Some a => mret a
  | None => raise UnboundLocalError
  end.

Definition log_warning (msg : message) : io unit := emit (EvLog WARNING msg).
Definition log_error (msg : message) : io unit := emit (EvLog ERROR msg).
Definition st_write (line : ui_line) : io unit := emit (EvWrite line).

Definition raise_for_status (r : response) : io unit :=
  if status_error r then raise HTTPError else mret tt.

Definition resp_json (r : response) : io json := lift (body r).

(** The orders a trace submitted, in order. *)
Fixpoint posts (t : list event) : list order :=
  match t with
  | [] => []
  | EvPost o :: rest => o :: posts rest
  | _ :: rest => posts rest
  end.

End Effects.

(* ===================================================================== *)
(** * datetime                                                            *)
(* ===================================================================== *)

Module Datetime.
Import Py.

(** A [datetime.datetime]: with a tzinfo it denotes an instant, kept as
    microseconds since the epoch in UTC; without one it is wall-clock time
    only and cannot be compared with an aware value. *)
Inductive datetime : Type :=
  | Aware (utc : Z)
  | Naive (wall : Z).

(** [datetime.min] and [datetime.max] (years 1 to 9999), in microseconds. *)
Definition min_instant : Z := -62135596800000000.
Definition max_instant : Z := 253402300799999999.

(** [t + datetime.timedelta(hours=h)] on an aware [t]: OverflowError once
    the sum leaves the supported range. *)
Definition add_hours (t : Z) (h : Z) : result Z :=
  let t' := t + h * 3600000000 in
  if (min_instant <=? t') && (t' <=? max_instant) then Returned t'
  else Raised OverflowError.

(** [a < b <= c] with [a] and [c] aware: comparing an aware with a naive
    datetime raises TypeError. *)
Definition between (a : Z) (b : datetime) (c : Z) : result bool :=
  match b with
  | Aware t => Returned ((a <? t) && (t <=? c))
  | Naive _ => Raised TypeError
  end.

(** ** A reader for the layout YYYY-MM-DDTHH:MM:SS[+HH:MM]

    [datetime.fromisoformat] belongs to the Python library, so the
    program is embedded over an arbitrary reader (see [Api]); this one is
    the instance the examples run with. Every [fromisoformat] since
    Python 3.7 reads this layout as done here. *)

Definition digit (c : ascii) : option Z :=
  let n := Z.of_N (N_of_ascii c) in
  if (48 <=? n) && (n <=? 57) then Some (n - 48) else None.

Definition digits2 (a b : ascii) : option Z :=
  x ← digit a; y ← digit b; Some (10 * x + y).

Definition digits4 (a b c d : ascii) : option Z :=
  x ← digits2 a b; y ← digits2 c d; Some (100 * x + y).

Definition is_leap (y : Z) : bool :=
  (y mod 4 =? 0) && (negb (y mod 100 =? 0) || (y mod 400 =? 0)).

Definition days_in_month (y m : Z) : Z :=
  if m =? 2 then (if is_leap y then 29 else 28)
  else if (m =? 4) || (m =? 6) || (m =? 9) || (m =? 11) then 30
  else 31.

(** Days from 1970-01-01 to the civil date y-m-d. *)
Definition days_from_civil (y m d : Z) : Z :=
  let y' := if m <=? 2 then y - 1 else y in
  let era := y' / 400 in
  let yoe := y' - era * 400 in
  let mp := if 2 <? m then m - 3 else m + 9 in
  let doy := (153 * mp + 2) / 5 + d - 1 in
  let doe := yoe * 365 + yoe / 4 - yoe / 100 + doy in
  era * 146097 + doe - 719468.

Definition wall_clock (y mo d h mi s : Z) : option Z :=
  if (1 <=? y) && (1 <=? mo) && (mo <=? 12) && (1 <=? d)
     && (d <=? days_in_month y mo) && (h <=? 23) && (mi <=? 59) && (s <=? 59)
  then Some (((days_from_civil y mo d * 24 + h) * 60 + mi) * 60 * 1000000
             + s * 1000000)
  else None.

Definition utc_offset (sign h1 h2 m1 m2 : ascii) : option Z :=
  h ← digits2 h1 h2; m ← digits2 m1 m2;
  if (h <=? 23) && (m <=? 59) then
    let off := (h * 60 + m) * 60 * 1000000 in
    if Ascii.eqb sign "+" then Some off
    else if Ascii.eqb sign "-" then Some (- off)
    else None
  else None.

Definition parse_iso (s : string) : option datetime :=
  match list_ascii_of_string s with
  | y1 :: y2 :: y3 :: y4 :: "-"%char :: mo1 :: mo2 :: "-"%char :: d1 :: d2
    :: "T"%char :: h1 :: h2 :: ":"%char :: mi1 :: mi2 :: ":"%char :: s1 :: s2
    :: zone =>
      y ← digits4 y1 y2 y3 y4; mo ← digits2 mo1 mo2; d ← digits2 d1 d2;
      h ← digits2 h1 h2; mi ← digits2 mi1 mi2; sec ← digits2 s1 s2;
      wall ← wall_clock y mo d h mi sec;
      match zone with
      | [] => Some (Naive wall)
      | [sign; oh1; oh2; ":"%char; om1; om2] =>
          off ← utc_offset sign oh1 oh2 om1 om2; Some (Aware (wall - off))
      | _ => None
      end
  | _ => None
  end.

End Datetime.

(* ===================================================================== *)
(** * api3.py                                                             *)
(* ===================================================================== *)

Module Api.
Import Py Effects Datetime.

(** [len(v)], used for the log line of [fetch_event_data]. *)
Definition py_len (v : json) : result nat :=
  match v with
  | JList l => Returned (List.length l)
  | JDict kv => Returned (List.length kv)
  | JStr s => Returned (String.length s)
  | _ => Raised TypeError
  end.

(** [fetch_event_data(series_ticker, with_nested_markets)]; [get] is what
    the GET on /events did. The value returned is a dict: on anything
    else [data.get] raises inside the [try] and the result is None. *)
Definition fetch_event_data (get : http_outcome) (series_ticker : string)
    (with_nested_markets : bool) : io (option dict) :=
  try_except
    (emit (EvGet series_ticker with_nested_markets);;
     resp ← match get with
            | NoResponse e => raise e
            | Answered r => mret r
            end;
     raise_for_status resp;;
     data ← resp_json resp;
     events ← lift (py_get data "events" (JList []));
     n ← lift (py_len events);
     log_warning (MsgFetched series_ticker n with_nested_markets);;
     match data with
     | JDict kv => mret (Some kv)
     | _ => raise AttributeError
     end)
    is_Exception
    (fun e => log_error (MsgFetchError series_ticker e);; mret None).

Section Hourly.

(** [datetime.datetime.fromisoformat] on a [str]: the datetime read, or
    None where it raises ValueError. *)
Variable fromisoformat : string -> option datetime.

(** The instant [datetime.datetime.now(datetime.timezone.utc)] returned. *)
Variable now : Z.

(** The inner function [is_hourly] of [fetch_hourly_markets]; [cutoff]
    is the enclosing function's local. *)
Definition is_hourly (cutoff : Z) (market : json) : result bool :=
  status ← py_get market "status" (JStr "");
  lowered ← py_lower status;
  if String.eqb lowered "finalized" then mret false
  else
    close_str ← py_get market "close_time" JNull;
    if negb (truthy close_str) then mret false
    else
      match (replaced ← py_replace close_str "Z" "+00:00";
             match fromisoformat replaced with
             | Some t => mret t
             | None => Raised ValueError
             end) with
      | Raised e => if is_ValueError e then mret false else Raised e
      | Returned close_time => between now close_time cutoff
      end.

(** [for m in items: if is_hourly(m): hourly_markets.append(m)]; the
    list returned is what the loop appended. *)
Fixpoint keep_hourly (cutoff : Z) (items : list json) : result (list json) :=
  match items with
  | [] => mret []
  | m :: rest =>
      b ← is_hourly cutoff m;
      kept ← keep_hourly cutoff rest;
      mret (if (b : bool) then m :: kept else kept)
  end.

(** [for event in events: for m in event.get("markets", []): ...]. *)
Fixpoint keep_hourly_events (cutoff : Z) (events : list json)
    : result (list json) :=
  match events with
  | [] => mret []
  | event :: rest =>
      markets ← py_get event "markets" (JList []);
      items ← py_iter markets;
      kept ← keep_hourly cutoff items;
      more ← keep_hourly_events cutoff rest;
      mret (kept ++ more)
  end.

(** The part of [fetch_hourly_markets] after [fetch_event_data]. *)
Definition hourly_of (data : option dict) (series_ticker : string) (hours : Z)
    : io (list json) :=
  match data with
  | None | Some [] => mret []
  | Some data =>
      cutoff ← lift (add_hours now hours);
      hourly_markets ←
        lift (if dict_contains "markets" data then
                items ← py_iter (dict_get data "markets" JNull);
                keep_hourly cutoff items
              else if dict_contains "events" data then
                events ← py_iter (dict_get data "events" JNull);
                keep_hourly_events cutoff events
              else mret []);
      log_warning (MsgHourly series_ticker (List.length hourly_markets) hours);;
      mret hourly_markets
  end.

Definition fetch_hourly_markets (get : http_outcome) (series_ticker : string)
    (hours : Z) : io (list json) :=
  data ← fetch_event_data get series_ticker true;
  hourly_of data series_ticker hours.

End Hourly.

(** [place_trade(...)]; [post] is what the POST on /portfolio/orders did.
    [resp] is the local that the first statement of the [try] assigns:
    it is bound in the handler only if [session.post] returned. *)
Definition place_trade (post : order -> http_outcome)
    (action side ticker : string) (count : Z) (order_type : string)
    (yes_price no_price sell_position_floor : Z) (client_order_id : string)
    : io (option json) :=
  let payload :=
    {| Effects.action := action;
       Effects.client_order_id := client_order_id;
       Effects.count := count;
       Effects.sell_position_floor := sell_position_floor;
       Effects.side := side;
       Effects.ticker := ticker;
       Effects.type := order_type;
       Effects.yes_price := yes_price;
       Effects.no_price := no_price |} in
  let resp : option response :=
    match post payload with
    | NoResponse _ => None
    | Answered r => Some r
    end in
  try_except
    (emit (EvPost payload);;
     r ← match post payload with
         | NoResponse e => raise e
         | Answered r => mret r
         end;
     raise_for_status r;;
     doc ← resp_json r;
     log_warning (MsgOrderPlaced doc);;
     resp_json r ≫= fun doc' => mret (Some doc'))
    is_Exception
    (fun e =>
       log_error (MsgOrderError ticker e);;
       r ← read_local resp;
       log_error (MsgResponseText (text r));;
       mret None).

End Api.

(* ===================================================================== *)
(** * bot3.py                                                             *)
(* ===================================================================== *)

Module Bot.
Import Py.

(** The attributes [KalshiBot.__init__] stores; all of them are [Final]. *)
Record KalshiBot : Type := {
  entry_price_low : number;
  entry_price_high : number;
  exit_price_profit : number;
  exit_price_loss : number;
  trade_size : Z;
  profit_goal : number;
  max_drawdown : number
}.

(** [entry_price_low <= current_price <= entry_price_high]. *)
Definition should_enter_trade (self : KalshiBot) (current_price : number) : bool :=
  num_le (entry_price_low self) current_price
  && num_le current_price (entry_price_high self).

Definition should_exit_trade (self : KalshiBot) (current_price entry_price : number)
    : string :=
  if num_ge current_price (exit_price_profit self) then "profit"
  else if num_le current_price (exit_price_loss self) then "loss"
  else "".

End Bot.

(* ===================================================================== *)
(** * assistant3.py                                                       *)
(* ===================================================================== *)

Module Assistant.
Import Py Effects Datetime Bot.

(** One row of the [candles] DataFrame; the four price columns hold
    doubles, [time] the aware datetime at which the row was started. *)
Record candle : Type := Candle {
  time : Z;
  open : float;
  high : float;
  low : float;
  close : float
}.

(** An entry of the [positions] dict. *)
Record position : Type := Position {
  pos_side : string;
  entry_price : number;
  quantity : Z
}.

(** [st.session_state]. *)
Record session_state : Type := Session {
  candles : list candle;
  positions : gmap string position;
  cumulative_pnl : float
}.

(** Section 3 of the script: what a fresh session starts with. *)
Definition initial_state : session_state :=
  {| candles := []; positions := ∅; cumulative_pnl := lit 0.0 |}.

(** ** Candles *)

(** The builtins [max(a, b)] and [min(a, b)]: the first argument is kept
    unless the second compares strictly greater (resp. smaller). *)
Definition py_max (a b : float) : float := if SFltb a b then b else a.
Definition py_min (a b : float) : float := if SFltb b a then b else a.

(** [(now - last_time).total_seconds() / 60.0], as an exact fraction.
    Datetimes carry whole microseconds, so for the bucket sizes the page
    offers the rounding of the double quotient never moves it across
    [interval]. *)
Definition minutes_between (now last_time : Z) : Q :=
  Qmake (now - last_time) 60000000.

Definition Qltb (x y : Q) : bool :=
  match Qcompare x y with Lt => true | _ => false end.

Definition new_row (now : Z) (price : float) : candle :=
  {| time := now; open := price; high := price; low := price; close := price |}.

(** The three [df.at[idx, ...] = ...] assignments on the last row. *)
Definition fold_price (price : float) (c : candle) : candle :=
  {| time := time c;
     open := open c;
     high := py_max (high c) price;
     low := py_min (low c) price;
     close := price |}.

(** [update_candles(symbol, interval)]: [now] is the clock reading and
    [price] what [fetch_current_price(symbol)] returned. *)
Definition update_candles (now : Z) (price : option float) (interval : Z)
    (st : session_state) : session_state :=
  match price with
  | None => st
  | Some price =>
      let df := candles st in
      let df' :=
        match last df with
        | None => [new_row now price]                       (* df.empty *)
        | Some last_row =>
            let delta := minutes_between now (time last_row) in
            if Qltb delta (inject_Z interval)
            then removelast df ++ [fold_price price last_row]
            else df ++ [new_row now price]
        end in
      {| candles := df'; positions := positions st;
         cumulative_pnl := cumulative_pnl st |}
  end.

(** ** PnL helper *)

Definition update_pnl (profit : float) (st : session_state) : session_state :=
  {| candles := candles st; positions := positions st;
     cumulative_pnl := SFadd prec emax (cumulative_pnl st) profit |}.

(** ** Auto-trading *)

(** [a <= b] on two values of a market record. *)
Definition py_le (a b : json) : result bool :=
  match as_number a, as_number b with
  | Some x, Some y => Returned (num_le x y)
  | _, _ => Raised TypeError
  end.

(** [bid is not None and bot.should_enter_trade(bid)]. *)
Definition enters (bot : KalshiBot) (bid : json) : result bool :=
  if is_None bid then Returned false
  else match as_number bid with
       | Some p => Returned (should_enter_trade bot p)
       | None => Raised TypeError
       end.

(** Lines 141-161: the side and price chosen for one market, or None
    where the loop reports no action and continues. *)
Definition choose_side (bot : KalshiBot) (yes_bid no_bid : json)
    : result (option (string * json)) :=
  enter_yes ← enters bot yes_bid;
  enter_no ← enters bot no_bid;
  if (enter_yes : bool) && (enter_no : bool) then
    le ← py_le yes_bid no_bid;
    if (le : bool) then mret (Some ("yes", yes_bid))
    else mret (Some ("no", no_bid))
  else if enter_yes then mret (Some ("yes", yes_bid))
  else if enter_no then mret (Some ("no", no_bid))
  else mret None.

(** [int(chosen_price * 100)]. *)
Definition price_in_cents (chosen_price : number) : result Z :=
  py_int (num_mul_int chosen_price 100).

Section Trading.

Variable bot : KalshiBot.

(** The order endpoint: what the [n]-th POST of this run is answered. *)
Variable post : nat -> order -> http_outcome.

(** The body of the [for market in all_markets] loop. [sent] counts the
    orders already posted in this run. The session state is written
    only by the last statement, after every call that can raise. *)
Definition trade_market (market : json) (st : session_state) (sent : nat)
    : io session_state :=
  ticker ← lift (py_get market "ticker" JNull);
  yes_bid ← lift (py_get market "yes_bid" JNull);
  no_bid ← lift (py_get market "no_bid" JNull);
  if negb (truthy ticker) || (is_None yes_bid && is_None no_bid) then mret st
  else
    choice ← lift (choose_side bot yes_bid no_bid);
    match choice with
    | None => st_write (NoAction ticker yes_bid no_bid);; mret st
    | Some (chosen_side, chosen) =>
        chosen_price ← match as_number chosen with
                       | Some p => mret p
                       | None => raise TypeError
                       end;
        st_write (PlacingOrder ticker chosen_side chosen_price);;
        cents ← lift (price_in_cents chosen_price);
        name ← match ticker with
               | JStr s => mret s
               | _ => raise AttributeError       (* ticker.replace *)
               end;
        let order_id := String.append "order_" (str_replace "-" "_" name) in
        order_response ←
          (if String.eqb chosen_side "yes"
           then Api.place_trade (post sent) "buy" "yes" name (trade_size bot)
                  "Market" cents 0 0 order_id
           else Api.place_trade (post sent) "buy" "no" name (trade_size bot)
                  "Market" 0 cents 0 order_id);
        match order_response with
        | Some doc =>
            if truthy doc then
              st_write (OrderPlacedOk doc);;
              mret {| candles := candles st;
                      positions :=
                        <[name := {| pos_side := chosen_side;
                                     entry_price := chosen_price;
                                     quantity := trade_size bot |}]>
                          (positions st);
                      cumulative_pnl := cumulative_pnl st |}
            else st_write (OrderFailed ticker);; mret st
        | None => st_write (OrderFailed ticker);; mret st
        end
    end.

(** The [for] loop. When an exception escapes an iteration the session
    keeps what the earlier iterations wrote. *)
Fixpoint trade_loop (markets : list json) (st : session_state) (sent : nat)
    : session_state * io unit :=
  match markets with
  | [] => (st, mret tt)
  | market :: rest =>
      match trade_market market st sent with
      | (t, Returned st') =>
          let '(st'', (t', r)) :=
            trade_loop rest st' (sent + List.length (posts t))%nat in
          (st'', (t ++ t', r))
      | (t, Raised e) => (st, (t, Raised e))
      end
  end.

(** [auto_trade_logic()]: the session state it leaves and its trace. *)
Definition auto_trade_logic (all_markets : list json) (st : session_state)
    : session_state * io unit :=
  if num_ge (NFloat (cumulative_pnl st)) (profit_goal bot) then
    (st, st_write ProfitGoalReached)
  else if num_le (NFloat (cumulative_pnl st)) (num_neg (max_drawdown bot)) then
    (st, st_write MaxDrawdownReached)
  else trade_loop all_markets st 0%nat.

End Trading.

(** ** One run of the script (section 9) and the reruns of a session *)

(** What one run reads from the page, the clock and the network. *)
Record run_inputs : Type := {
  bot : KalshiBot;                  (* built from the sidebar *)
  auto_trading : bool;
  chart_interval : Z;
  clock : Z;
  price_sample : option float;      (* fetch_current_price *)
  all_markets : list json;          (* get_hourly_markets *)
  post : nat -> order -> http_outcome
}.

Definition run_script (i : run_inputs) (st : session_state)
    : session_state * io unit :=
  let st := update_candles (clock i) (price_sample i) (chart_interval i) st in
  if auto_trading i then auto_trade_logic (bot i) (post i) (all_markets i) st
  else (st, mret tt).

(** The session state after a sequence of runs; it survives a run that
    ended with an exception. *)
Definition session_after (runs : list run_inputs) (st : session_state)
    : session_state :=
  fold_left (fun st i => fst (run_script i st)) runs st.

(** ** Section 5 of the script: the markets of the four series *)

Definition SERIES_LIST : list string := ["KXETHD"; "KXETH"; "KXBTCD"; "KXBTC"].

Section Markets.

Variable fromisoformat : string -> option datetime.

(** The clock reading and the answer of the events endpoint at the call
    made for a series. *)
Variable now : string -> Z.
Variable get : string -> http_outcome.

(** [for s_ticker in series: hourly = fetch_hourly_markets(s_ticker,
    hours=1); if hourly: all_markets.extend(hourly)]. *)
Fixpoint gather_hourly (series : list string) (all_markets : list json)
    : io (list json) :=
  match series with
  | [] => mret all_markets
  | s_ticker :: rest =>
      hourly ← Api.fetch_hourly_markets fromisoformat (now s_ticker)
                 (get s_ticker) s_ticker 1;
      gather_hourly rest
        (match hourly with
         | [] => all_markets
         | _ => all_markets ++ hourly
         end)
  end.

(** One evaluation of [get_hourly_markets()] (the 30 s cache of the page
    replays its value and is not part of the function). *)
Definition get_hourly_markets : io (list json) := gather_hourly SERIES_LIST [].

End Markets.

(** ** Section 6: the price of the underlying *)

(** [fetch_current_price(symbol)]; [get] is what the GET on the quote
    endpoint did. The bare [except] turns every exception into None,
    which is [JNull] here, as is a missing "usd" entry. *)
Definition fetch_current_price (get : http_outcome) (symbol : string) : json :=
  match (resp ← match get with
                | NoResponse e => Raised e
                | Answered r => Returned r
                end;
         (if status_error resp then Raised HTTPError else Returned tt);;
         data ← body resp;
         entry ← py_get data symbol (JDict []);
         py_get entry "usd" JNull) with
  | Returned price => price
  | Raised _ => JNull
  end.

(** The bot the page builds when the sidebar is left at its defaults. *)
Definition default_bot : KalshiBot :=
  {| entry_price_low := NFloat (lit 0.30);
     entry_price_high := NFloat (lit 0.80);
     exit_price_profit := NFloat (lit 0.90);
     exit_price_loss := NFloat (lit 0.15);
     trade_size := 10;
     profit_goal := NInt 100;
     max_drawdown := NInt 50 |}.

End Assistant.

(* ===================================================================== *)
(** * The vocabulary of the specification                                 *)
(* ===================================================================== *)

Module Spec.
Import Py Effects Datetime Api Bot Assistant.

(** Equality of two strings up to the case of their ASCII letters. *)
Fixpoint caseless_eqb (a b : string) : bool :=
  match a, b with
  | EmptyString, EmptyString => true
  | String c a', String d b' =>
      Ascii.eqb (lower_char c) (lower_char d) && caseless_eqb a' b'
  | _, _ => false
  end.

(** The status of the record is the word "finalized" in some casing. *)
Definition finalized (market : json) : bool :=
  match market with
  | JDict kv =>
      match dict_get kv "status" (JStr "") with
      | JStr s => caseless_eqb s "finalized"
      | _ => false
      end
  | _ => false
  end.

Section Window.

Variable fromisoformat : string -> option datetime.

(** The instant at which the record closes: its close_time is present
    (a non-empty string) and, once a "Z" is read as "+00:00", parses to
    an offset-aware datetime. *)
Definition closing_instant (market : json) : option Z :=
  match market with
  | JDict kv =>
      match dict_get kv "close_time" JNull with
      | JStr s =>
          if String.eqb s "" then None
          else match fromisoformat (str_replace "Z" "+00:00" s) with
               | Some (Aware t) => Some t
               | _ => None
               end
      | _ => None
      end
  | _ => None
  end.

(** Not finalized, and closing in the window (now, cutoff]. *)
Definition qualifies (now cutoff : Z) (market : json) : bool :=
  negb (finalized market)
  && match closing_instant market with
     | Some t => (now <? t) && (t <=? cutoff)
     | None => false
     end.

(** The shapes [is_hourly] is written for: a dict whose status is a
    string and whose close_time, unless the status already settles the
    answer, is missing, falsy, or a string that does not parse to a
    naive datetime. *)
Definition well_shaped (market : json) : bool :=
  match market with
  | JDict kv =>
      match dict_get kv "status" (JStr "") with
      | JStr s =>
          caseless_eqb s "finalized"
          || match dict_get kv "close_time" JNull with
             | JStr c =>
                 String.eqb c ""
                 || match fromisoformat (str_replace "Z" "+00:00" c) with
                    | Some (Naive _) => false
                    | _ => true
                    end
             | v => negb (truthy v)
             end
      | _ => false
      end
  | _ => false
  end.

End Window.

(** The items of a value that can be iterated, none otherwise. *)
Definition items_of (v : json) : list json :=
  match py_iter v with
  | Returned l => l
  | Raised _ => []
  end.

(** The market records of an events document: those under "markets" if
    the key is there, else those nested under the "events". *)
Definition records_of (data : dict) : list json :=
  if dict_contains "markets" data then items_of (dict_get data "markets" JNull)
  else if dict_contains "events" data then
    flat_map (fun event =>
                match event with
                | JDict kv => items_of (dict_get kv "markets" (JList []))
                | _ => []
                end)
             (items_of (dict_get data "events" JNull))
  else [].

(** The records that [fetch_event_data] handed to the filter. *)
Definition fetched_records (get : http_outcome) (series_ticker : string)
    : list json :=
  match snd (fetch_event_data get series_ticker true) with
  | Returned (Some data) => records_of data
  | _ => []
  end.

(** [len(v)] is defined: the value is a list, a dict or a string. *)
Definition sized (v : json) : bool :=
  match py_len v with
  | Returned _ => true
  | Raised _ => false
  end.

(** The two layouts [fetch_hourly_markets] walks without an error: a
    list under "markets", or else a list under "events" whose items are
    dicts with a list (or nothing) under "markets". *)
Definition expected_layout (data : dict) : bool :=
  if dict_contains "markets" data then
    match dict_get data "markets" JNull with JList _ => true | _ => false end
  else if dict_contains "events" data then
    match dict_get data "events" JNull with
    | JList events =>
        forallb (fun event =>
                   match event with
                   | JDict kv =>
                       match dict_get kv "markets" (JList []) with
                       | JList _ => true
                       | _ => false
                       end
                   | _ => false
                   end) events
    | _ => false
    end
  else true.

(** The answer confirms an order: a good status and a truthy document. *)
Definition confirming (o : http_outcome) : bool :=
  match o with
  | Answered r =>
      negb (status_error r)
      && match body r with
         | Returned doc => truthy doc
         | Raised _ => false
         end
  | NoResponse _ => false
  end.

(** The order the loop sends for a market named [name] once [side] has
    been chosen at [cents]. *)
Definition order_for (bot : KalshiBot) (name side : string) (cents : Z) : order :=
  if String.eqb side "yes"
  then Order "buy" (String.append "order_" (str_replace "-" "_" name))
             (trade_size bot) 0 "yes" name "Market" cents 0
  else Order "buy" (String.append "order_" (str_replace "-" "_" name))
             (trade_size bot) 0 "no" name "Market" 0 cents.

(** The bid is there but is no number (a string, a list, an object). *)
Definition not_a_price (v : json) : bool :=
  negb (is_None v)
  && match as_number v with
     | Some _ => false
     | None => true
     end.

(** Consecutive candles start at least [interval] minutes apart. *)
Fixpoint spaced (interval : Z) (l : list candle) : Prop :=
  match l with
  | [] => True
  | c :: rest =>
      match rest with
      | [] => True
      | c' :: _ => interval * 60000000 <= time c' - time c
      end /\ spaced interval rest
  end.

(** The number is an integer or a double other than NaN. *)
Definition not_nan (a : number) : bool :=
  match a with
  | NInt _ => true
  | NFloat f => negb (is_nan f)
  end.

(** The double a two-decimal price k/100 is read as: the double nearest
    to the quotient, like the literal. *)
Definition hundredths (k : Z) : float :=
  SFdiv prec emax (float_of_Z k) (float_of_Z 100).

(** The candle invariant: high >= max(open, close), low <= min(open, close). *)
Definition well_formed (c : candle) : Prop :=
  SFleb (py_max (open c) (close c)) (high c) = true
  /\ SFleb (low c) (py_min (open c) (close c)) = true.

(** A price sample: the clock reading, the price fetched (if any) and
    the bucket size selected on the page. *)
Record sample : Type := Sample {
  at_time : Z;
  fetched : option float;
  bucket : Z
}.

Definition is_number (s : sample) : Prop :=
  match fetched s with
  | Some p => is_nan p = false
  | None => True
  end.

(** The candle state after a sequence of samples. *)
Definition feed (samples : list sample) (st : session_state) : session_state :=
  fold_left (fun st s => update_candles (at_time s) (fetched s) (bucket s) st)
            samples st.

End Spec.

(* ===================================================================== *)
(** * Concrete inputs used by the examples                                *)
(* ===================================================================== *)

Module Examples.
Import Py Effects Datetime Api Bot Assistant.

(** 2025-06-01T12:30:00Z, in microseconds since the epoch. *)
Definition noon_thirty : Z := 1748781000000000.

Definition market (ticker status : string) (close_time : json) : json :=
  JDict [("ticker", JStr ticker); ("status", JStr status);
         ("close_time", close_time)].

Definition closes_in_window : json :=
  market "KXBTC-A" "active" (JStr "2025-06-01T13:00:00Z").
Definition finalized_in_window : json :=
  market "KXBTC-B" "FINALIZED" (JStr "2025-06-01T13:00:00Z").
Definition closes_now : json :=
  market "KXBTC-C" "active" (JStr "2025-06-01T12:30:00Z").
Definition closes_at_cutoff : json :=
  market "KXBTC-D" "active" (JStr "2025-06-01T13:30:00Z").
Definition closes_later : json :=
  market "KXBTC-E" "active" (JStr "2025-06-01T13:30:01Z").
Definition no_close_time : json :=
  JDict [("ticker", JStr "KXBTC-F"); ("status", JStr "active")].
Definition unreadable_close_time : json :=
  market "KXBTC-G" "active" (JStr "soon").
Definition numeric_close_time : json :=
  market "KXBTC-H" "active" (JInt 1748782800).
Definition naive_close_time : json :=
  market "KXBTC-I" "active" (JStr "2025-06-01T13:00:00").

Definition answer (doc : json) : http_outcome :=
  Answered {| status_error := false; body := Returned doc; text := "" |}.

(** An events document with the markets nested under one event. *)
Definition nested_events : http_outcome :=
  answer (JDict [("events",
    JList [JDict [("event_ticker", JStr "KXBTC-25JUN01");
                  ("markets",
                   JList [closes_in_window; finalized_in_window; closes_now;
                          closes_at_cutoff; closes_later; no_close_time;
                          unreadable_close_time])]])]).

(** A document whose only market carries its close_time as a number. *)
Definition epoch_close_time : http_outcome :=
  answer (JDict [("markets", JList [closes_in_window; numeric_close_time])]).

(** An order endpoint that confirms every order. *)
Definition confirms (n : nat) (o : order) : http_outcome :=
  answer (JDict [("order", JDict [("status", JStr "resting")])]).

(** An order endpoint that cannot be reached. *)
Definition unreachable (n : nat) (o : order) : http_outcome :=
  NoResponse ConnectionError.

Definition quoted (ticker : string) (yes_bid no_bid : json) : json :=
  JDict [("ticker", JStr ticker); ("yes_bid", yes_bid); ("no_bid", no_bid)].

(** A bot whose entry range starts at 0.20 instead of 0.30. *)
Definition wide_bot : KalshiBot :=
  {| entry_price_low := NFloat (lit 0.20);
     entry_price_high := NFloat (lit 0.80);
     exit_price_profit := NFloat (lit 0.90);
     exit_price_loss := NFloat (lit 0.15);
     trade_size := 10;
     profit_goal := NInt 100;
     max_drawdown := NInt 50 |}.

(** The events endpoint on a day when KXETH cannot be reached, KXETHD
    and KXBTCD list nothing and KXBTC answers [nested_events]. *)
Definition four_series (series : string) : http_outcome :=
  if String.eqb series "KXBTC" then nested_events
  else if String.eqb series "KXETH" then NoResponse Timeout
  else answer (JDict [("markets", JList [closes_later])]).

Definition found_that_day (series : string) : list json :=
  if String.eqb series "KXBTC" then [closes_in_window; closes_at_cutoff]
  else [].

(** One run of the page with auto-trading switched on. *)
Definition trading_run : run_inputs :=
  {| bot := default_bot; auto_trading := true; chart_interval := 5;
     clock := noon_thirty; price_sample := Some (lit 2612.45);
     all_markets := [quoted "KXBTC-A" (JFloat (lit 0.35)) JNull];
     post := confirms |}.

(** The next run, with auto-trading off and the price fetch failed. *)
Definition idle_run : run_inputs :=
  {| bot := default_bot; auto_trading := false; chart_interval := 5;
     clock := noon_thirty + 15000000; price_sample := None;
     all_markets := [quoted "KXBTC-A" (JFloat (lit 0.35)) JNull];
     post := confirms |}.

(** A session whose cumulative PnL has been set to 100.0. *)
Definition at_goal : session_state :=
  {| candles := []; positions := ∅; cumulative_pnl := lit 100.0 |}.

End Examples.

(* ===================================================================== *)
(** * Properties                                                          *)
(* ===================================================================== *)

Import Py Effects Datetime Api Bot Assistant Spec Examples.

(** ** Order on doubles and on numbers *)

Ltac cmp_cases :=
  repeat match goal with
  | H : context [Z.compare ?a ?b] |- _ =>
      destruct (Z.compare_spec a b); simpl in H
  | |- context [Z.compare ?a ?b] => destruct (Z.compare_spec a b); simpl
  | H : context [Pos.compare ?a ?b] |- _ =>
      destruct (Pos.compare_spec a b); simpl in H
  | |- context [Pos.compare ?a ?b] => destruct (Pos.compare_spec a b); simpl
  end.

Ltac float_cases :=
  simpl in *;
  change (Pos.compare_cont Eq) with Pos.compare in *;
  cmp_cases; subst; try reflexivity; try discriminate; try lia.

Lemma SFcompare_antisym (a b : float) :
  SFcompare b a = option_map CompOpp (SFcompare a b).
Proof.
  destruct a as [sa|sa| |sa ma ea], b as [sb|sb| |sb mb eb]; try reflexivity;
    try (destruct sa; reflexivity); try (destruct sb; reflexivity);
    try (destruct sa, sb; reflexivity).
  destruct sa, sb; float_cases.
Qed.

Lemma SFcompare_defined (a b : float) :
  is_nan a = false -> is_nan b = false -> exists c, SFcompare a b = Some c.
Proof.
  destruct a, b; simpl; try discriminate; intros _ _; eauto.
Qed.

Lemma SFleb_refl (a : float) : is_nan a = false -> SFleb a a = true.
Proof.
  unfold SFleb. destruct a as [s|s| |s m e]; try discriminate; intros _;
    try (destruct s; reflexivity).
  destruct s; float_cases.
Qed.

Lemma SFleb_trans (a b c : float) :
  SFleb a b = true -> SFleb b c = true -> SFleb a c = true.
Proof.
  unfold SFleb.
  destruct a as [sa|sa| |sa ma ea], b as [sb|sb| |sb mb eb],
           c as [sc|sc| |sc mc ec]; simpl; try discriminate; try reflexivity;
    try (destruct sa; simpl; try discriminate; try reflexivity;
         destruct sb; simpl; try discriminate; try reflexivity;
         destruct sc; simpl; try discriminate; reflexivity);
    try (destruct sa; simpl; try discriminate; try reflexivity;
         destruct sb; simpl; try discriminate; reflexivity);
    try (destruct sa; simpl; try discriminate; try reflexivity;
         destruct sc; simpl; try discriminate; reflexivity);
    try (destruct sb; simpl; try discriminate; try reflexivity;
         destruct sc; simpl; try discriminate; reflexivity).
  all: destruct sa, sb, sc; simpl; try discriminate; try reflexivity;
    intros H1 H2; float_cases.
Qed.

Lemma SFleb_not_nan (a b : float) :
  SFleb a b = true -> is_nan a = false /\ is_nan b = false.
Proof.
  unfold SFleb. destruct a, b; simpl; try discriminate; auto.
Qed.

Lemma SFltb_leb (a b : float) : SFltb a b = true -> SFleb a b = true.
Proof.
  unfold SFltb, SFleb. destruct (SFcompare a b) as [[]|]; congruence.
Qed.

(** On numbers the order is total: what is not below is above. *)
Lemma SFltb_false_leb (a b : float) :
  is_nan a = false -> is_nan b = false -> SFltb a b = false -> SFleb b a = true.
Proof.
  intros Ha Hb. unfold SFltb, SFleb. rewrite (SFcompare_antisym a b).
  destruct (SFcompare_defined a b Ha Hb) as [c ->].
  destruct c; simpl; congruence.
Qed.

Lemma num_compare_antisym (a b : number) :
  num_compare b a = option_map CompOpp (num_compare a b).
Proof.
  destruct a as [x|x], b as [y|y]; simpl.
  - now rewrite Z.compare_antisym.
  - reflexivity.
  - destruct (Z_SF_compare y x) as [[]|]; reflexivity.
  - apply SFcompare_antisym.
Qed.

Lemma num_le_defined (a b : number) :
  num_le a b = true -> exists c, num_compare a b = Some c.
Proof. unfold num_le. destruct (num_compare a b); [eauto | discriminate]. Qed.

Lemma num_le_false_lt (a b : number) (c : comparison) :
  num_compare a b = Some c -> num_le a b = false -> num_lt b a = true.
Proof.
  unfold num_le, num_lt. rewrite (num_compare_antisym a b).
  intros ->. destruct c; simpl; congruence.
Qed.

Lemma num_lt_le (a b : number) : num_lt a b = true -> num_le a b = true.
Proof.
  unfold num_lt, num_le. destruct (num_compare a b) as [[]|]; congruence.
Qed.

Lemma num_eq_ge (a b : number) : num_compare a b = Some Eq -> num_ge a b = true.
Proof.
  unfold num_ge, num_le. rewrite (num_compare_antisym a b). now intros ->.
Qed.

(** ** [place_trade] *)

(** C1 (fails on the code). When [session.post] raises before a response
    exists, whatever the error and the arguments, the handler logs the
    error and then reads the local [resp], which was never assigned:
    [place_trade] does not return None, UnboundLocalError escapes it. *)
Theorem place_trade_without_response_raises :
  forall (e : exn) (action side ticker : string) (count : Z)
         (order_type : string) (yes_price no_price floor : Z) (id : string),
    place_trade (fun _ => NoResponse e) action side ticker count order_type
                yes_price no_price floor id
    = ([EvPost (Order action id count floor side ticker order_type
                      yes_price no_price);
        EvLog ERROR (MsgOrderError ticker e)],
       Raised UnboundLocalError).
Proof. intros. reflexivity. Qed.

(** Once a response object exists nothing escapes: the call returns the
    confirmation document, or None after a bad status or a body that is
    not JSON. *)
Lemma place_trade_with_response_returns :
  forall (post : order -> http_outcome) (r : response)
         (action side ticker : string) (count : Z) (order_type : string)
         (yes_price no_price floor : Z) (id : string),
    post (Order action id count floor side ticker order_type yes_price no_price)
      = Answered r ->
    snd (place_trade post action side ticker count order_type
                     yes_price no_price floor id)
    = Returned (if status_error r then None
                else match body r with
                     | Returned doc => Some doc
                     | Raised _ => None
                     end).
Proof.
  intros post r action side ticker count order_type yes_price no_price floor id H.
  unfold place_trade. rewrite H.
  destruct r as [bad [doc|e] txt]; destruct bad; reflexivity.
Qed.

(** ** [should_exit_trade] *)

(** C2 (as the code has it). For every price and entry price the answer
    is "profit" when price >= exit_price_profit, else "loss" when
    price <= exit_price_loss, and otherwise the empty string; the profit
    test comes first, so it wins when both thresholds hold. *)
Theorem should_exit_trade_cases :
  forall (self : KalshiBot) (p e : number),
    (num_ge p (exit_price_profit self) = true ->
       should_exit_trade self p e = "profit")
    /\ (num_ge p (exit_price_profit self) = false ->
        num_le p (exit_price_loss self) = true ->
          should_exit_trade self p e = "loss")
    /\ (num_ge p (exit_price_profit self) = false ->
        num_le p (exit_price_loss self) = false ->
          should_exit_trade self p e = "").
Proof.
  intros self p e. unfold should_exit_trade.
  repeat split; intros; repeat match goal with H : _ = _ |- _ => rewrite H end;
    reflexivity.
Qed.

(** With the default thresholds a price of 0.5 meets neither of them,
    and the answer is not the string "none". *)
Lemma should_exit_trade_not_none :
  num_ge (NFloat (lit 0.5)) (exit_price_profit default_bot) = false
  /\ num_le (NFloat (lit 0.5)) (exit_price_loss default_bot) = false
  /\ should_exit_trade default_bot (NFloat (lit 0.5)) (NFloat (lit 0.5))
     <> "none".
Proof. repeat split; vm_compute; discriminate. Qed.

Example should_exit_trade_default_thresholds :
  should_exit_trade default_bot (NFloat (lit 0.95)) (NFloat (lit 0.5)) = "profit"
  /\ should_exit_trade default_bot (NFloat (lit 0.90)) (NFloat (lit 0.5)) = "profit"
  /\ should_exit_trade default_bot (NFloat (lit 0.15)) (NFloat (lit 0.5)) = "loss"
  /\ should_exit_trade default_bot (NFloat (lit 0.5)) (NFloat (lit 0.5)) = "".
Proof. repeat split; vm_compute; reflexivity. Qed.

(** Overlapping thresholds (profit at 0.20, loss at 0.80): a price of
    0.5 meets both and the answer is "profit". *)
Example should_exit_trade_profit_first :
  should_exit_trade
    {| entry_price_low := NFloat (lit 0.30);
       entry_price_high := NFloat (lit 0.80);
       exit_price_profit := NFloat (lit 0.20);
       exit_price_loss := NFloat (lit 0.80);
       trade_size := 10; profit_goal := NInt 100; max_drawdown := NInt 50 |}
    (NFloat (lit 0.5)) (NFloat (lit 0.5)) = "profit".
Proof. vm_compute. reflexivity. Qed.

(** The entry price plays no part in the answer. *)
Lemma should_exit_trade_ignores_entry (self : KalshiBot) (p e e' : number) :
  should_exit_trade self p e = should_exit_trade self p e'.
Proof. reflexivity. Qed.

(** ** [fetch_hourly_markets] *)

Lemma str_lower_caseless (a b : string) :
  String.eqb (str_lower a) (str_lower b) = caseless_eqb a b.
Proof.
  revert b. induction a as [|c a IH]; intros [|d b]; simpl; try reflexivity.
  rewrite IH. reflexivity.
Qed.

Lemma lowered_is_finalized (s : string) :
  String.eqb (str_lower s) "finalized" = caseless_eqb s "finalized".
Proof. exact (str_lower_caseless s "finalized"). Qed.

Section HourlyFacts.

Variable fromisoformat : string -> option datetime.
Variables now cutoff : Z.

Local Abbreviation is_hourly := (is_hourly fromisoformat now cutoff).
Local Abbreviation qualifies := (qualifies fromisoformat now cutoff).
Local Abbreviation well_shaped := (well_shaped fromisoformat).

(** On the shapes it is written for [is_hourly] decides [qualifies]; on
    every other record it raises. *)
Lemma is_hourly_characterised (market : json) :
  (well_shaped market = true /\ is_hourly market = Returned (qualifies market))
  \/ (well_shaped market = false /\ exists e, is_hourly market = Raised e).
Proof.
  destruct market as [| | | | |l|kv]; try (right; split; [reflexivity|]; eexists; reflexivity).
  unfold Api.is_hourly, Spec.qualifies, Spec.well_shaped, finalized,
    closing_instant; simpl.
  destruct (dict_get kv "status" (JStr "")) as [| | | |s| |];
    try (right; split; [reflexivity|]; eexists; reflexivity).
  simpl. rewrite lowered_is_finalized.
  destruct (caseless_eqb s "finalized"); simpl; [left; split; reflexivity|].
  destruct (dict_get kv "close_time" JNull) as [|b|z|f|c|l|kv']; simpl.
  - left; split; reflexivity.
  - destruct b; simpl; [right; split; [reflexivity|]; eexists; reflexivity
                       |left; split; reflexivity].
  - destruct (z =? 0); simpl; [left; split; reflexivity
                              |right; split; [reflexivity|]; eexists; reflexivity].
  - destruct f; simpl; try (left; split; reflexivity);
      right; (split; [reflexivity|]); eexists; reflexivity.
  - destruct (String.eqb c ""); simpl; [left; split; reflexivity|].
    destruct (fromisoformat (str_replace "Z" "+00:00" c)) as [[t|t]|]; simpl.
    + left; split; reflexivity.
    + right; split; [reflexivity|]; eexists; reflexivity.
    + left; split; reflexivity.
  - destruct l; simpl; [left; split; reflexivity
                       |right; split; [reflexivity|]; eexists; reflexivity].
  - destruct kv'; simpl; [left; split; reflexivity
                         |right; split; [reflexivity|]; eexists; reflexivity].
Qed.

Lemma is_hourly_returned (market : json) (b : bool) :
  is_hourly market = Returned b -> b = qualifies market.
Proof.
  destruct (is_hourly_characterised market) as [[_ ->]|[_ [e ->]]];
    congruence.
Qed.

Lemma is_hourly_well_shaped (market : json) :
  well_shaped market = true -> is_hourly market = Returned (qualifies market).
Proof.
  destruct (is_hourly_characterised market) as [[_ ->]|[-> _]];
    [reflexivity | discriminate].
Qed.

Lemma keep_hourly_returned (items kept : list json) :
  keep_hourly fromisoformat now cutoff items = Returned kept ->
  kept = List.filter qualifies items.
Proof.
  revert kept. induction items as [|m items IH]; simpl; intros kept H.
  - now inversion H.
  - destruct (is_hourly m) as [b|e] eqn:Hm; simpl in H; [|discriminate].
    destruct (keep_hourly fromisoformat now cutoff items) as [kept'|e] eqn:Hk;
      simpl in H; [|discriminate].
    inversion H; subst. rewrite <- (is_hourly_returned m b Hm).
    rewrite (IH kept' eq_refl). reflexivity.
Qed.

Lemma keep_hourly_well_shaped (items : list json) :
  Forall (fun m => well_shaped m = true) items ->
  keep_hourly fromisoformat now cutoff items
  = Returned (List.filter qualifies items).
Proof.
  induction 1 as [|m items Hm _ IH]; simpl; [reflexivity|].
  rewrite (is_hourly_well_shaped m Hm), IH. simpl.
  destruct (qualifies m); reflexivity.
Qed.

Lemma keep_hourly_events_returned (events kept : list json) :
  keep_hourly_events fromisoformat now cutoff events = Returned kept ->
  kept = List.filter qualifies
           (flat_map (fun event =>
                        match event with
                        | JDict kv => items_of (dict_get kv "markets" (JList []))
                        | _ => []
                        end) events).
Proof.
  revert kept. induction events as [|ev events IH]; simpl; intros kept H.
  - now inversion H.
  - destruct ev as [| | | | | |kv]; simpl in H; try discriminate.
    unfold items_of at 1.
    destruct (py_iter (dict_get kv "markets" (JList []))) as [items|e];
      simpl in H; [|discriminate].
    destruct (keep_hourly fromisoformat now cutoff items) as [k1|e] eqn:H1;
      simpl in H; [|discriminate].
    destruct (keep_hourly_events fromisoformat now cutoff events)
      as [k2|e] eqn:H2; simpl in H; [|discriminate].
    inversion H; subst.
    rewrite List.filter_app, <- (keep_hourly_returned _ _ H1),
      <- (IH k2 eq_refl).
    reflexivity.
Qed.

End HourlyFacts.

(** [fetch_event_data] never lets an exception out. *)
Lemma fetch_event_data_returns (get : http_outcome) (series : string) (nested : bool) :
  exists t data, fetch_event_data get series nested = (t, Returned data).
Proof.
  unfold fetch_event_data.
  destruct get as [e|[bad [doc|e] txt]]; [do 2 eexists; reflexivity|..];
    destruct bad; try (do 2 eexists; reflexivity).
  destruct doc as [| | | | | |kv]; try (do 2 eexists; reflexivity).
  unfold resp_json, py_get; simpl.
  destruct (dict_get kv "events" (JList [])); do 2 eexists; reflexivity.
Qed.

Lemma hourly_of_returned (fromisoformat : string -> option datetime) (now : Z)
    (data : option dict) (series : string) (hours : Z)
    (t : list event) (result : list json) :
  hourly_of fromisoformat now data series hours = (t, Returned result) ->
  result = List.filter (qualifies fromisoformat now (now + hours * 3600000000))
             (match data with Some d => records_of d | None => [] end).
Proof.
  destruct data as [[|p kv]|]; simpl; intros H;
    [now inversion H | | now inversion H].
  unfold add_hours in H.
  destruct ((min_instant <=? now + hours * 3600000000)
            && (now + hours * 3600000000 <=? max_instant)); simpl in H;
    [|discriminate].
  unfold records_of.
  destruct (dict_contains "markets" (p :: kv)).
  - unfold items_of.
    destruct (py_iter (dict_get (p :: kv) "markets" JNull)) as [items|e];
      simpl in H; [|discriminate].
    destruct (keep_hourly fromisoformat now _ items) as [kept|e] eqn:Hk;
      simpl in H; [|discriminate].
    inversion H; subst. now apply keep_hourly_returned.
  - destruct (dict_contains "events" (p :: kv)).
    + unfold items_of at 2.
      destruct (py_iter (dict_get (p :: kv) "events" JNull)) as [events|e];
        simpl in H; [|discriminate].
      destruct (keep_hourly_events fromisoformat now _ events) as [kept|e] eqn:Hk;
        simpl in H; [|discriminate].
      inversion H; subst. now apply keep_hourly_events_returned.
    + simpl in H. now inversion H.
Qed.

Lemma fetch_hourly_markets_filter (fromisoformat : string -> option datetime)
    (now : Z) (get : http_outcome) (series : string) (hours : Z)
    (t : list event) (result : list json) :
  fetch_hourly_markets fromisoformat now get series hours = (t, Returned result) ->
  result = List.filter (qualifies fromisoformat now (now + hours * 3600000000))
             (fetched_records get series).
Proof.
  unfold fetch_hourly_markets, fetched_records.
  destruct (fetch_event_data_returns get series true) as (t0 & data & ->).
  simpl.
  destruct (hourly_of fromisoformat now data series hours) as [t1 [r|e]] eqn:Hh;
    intros H; inversion H; subst.
  rewrite (hourly_of_returned _ _ _ _ _ _ _ Hh).
  destruct data; reflexivity.
Qed.

Lemma qualifies_iff (fromisoformat : string -> option datetime)
    (now cutoff : Z) (m : json) :
  qualifies fromisoformat now cutoff m = true
  <-> finalized m = false
      /\ exists c, closing_instant fromisoformat m = Some c /\ now < c <= cutoff.
Proof.
  unfold qualifies. rewrite andb_true_iff, negb_true_iff.
  destruct (closing_instant fromisoformat m) as [c|].
  - rewrite andb_true_iff, Z.ltb_lt, Z.leb_le. split.
    + intros [Hf Hc]. split; [exact Hf|]. exists c. split; [reflexivity|lia].
    + intros [Hf (c' & Hc' & Hw)]. inversion Hc'; subst. split; [exact Hf|lia].
  - split; [intros [_ H]; discriminate | intros [_ (c & H & _)]; discriminate].
Qed.

(** C3. Whenever [fetch_hourly_markets] returns, a fetched record is in
    its result iff it is not finalized (whatever the casing of the
    status), its close_time is present and parses, with "Z" read as UTC,
    to an offset-aware instant c, and now < c <= now + hours. So a record
    closing exactly now is left out, one closing exactly at now + hours is
    kept, and a finalized record is left out whatever its close_time. *)
Theorem fetch_hourly_markets_selects :
  forall (fromisoformat : string -> option datetime) (now : Z)
         (get : http_outcome) (series : string) (hours : Z)
         (t : list event) (result : list json),
    fetch_hourly_markets fromisoformat now get series hours
      = (t, Returned result) ->
    let cutoff := now + hours * 3600000000 in
    (forall m, In m result <->
       In m (fetched_records get series)
       /\ finalized m = false
       /\ exists c, closing_instant fromisoformat m = Some c
                    /\ now < c <= cutoff)
    /\ (forall m, closing_instant fromisoformat m = Some now -> ~ In m result)
    /\ (forall m, In m (fetched_records get series) -> finalized m = false ->
           closing_instant fromisoformat m = Some cutoff -> now < cutoff ->
           In m result)
    /\ (forall m, finalized m = true -> ~ In m result).
Proof.
  intros fromisoformat now get series hours t result H cutoff.
  apply fetch_hourly_markets_filter in H. fold cutoff in H.
  assert (Hin : forall m, In m result <->
            In m (fetched_records get series)
            /\ finalized m = false
            /\ exists c, closing_instant fromisoformat m = Some c
                         /\ now < c <= cutoff).
  { intros m. rewrite H, List.filter_In, qualifies_iff. reflexivity. }
  split; [exact Hin|]. split; [|split].
  - intros m Hc Hm. apply Hin in Hm as (_ & _ & c & Hc' & Hw).
    rewrite Hc in Hc'. inversion Hc'; subst. lia.
  - intros m Hm Hf Hc Hlt. apply Hin. split; [exact Hm|]. split; [exact Hf|].
    exists cutoff. split; [exact Hc|lia].
  - intros m Hf Hm. apply Hin in Hm as (_ & Hf' & _). congruence.
Qed.

Lemma fetch_hourly_markets_selects_witness :
  let result := [closes_in_window; closes_at_cutoff] in
  let cutoff := noon_thirty + 1 * 3600000000 in
  (forall m, In m result <->
     In m (fetched_records nested_events "KXBTC")
     /\ finalized m = false
     /\ exists c, closing_instant parse_iso m = Some c
                  /\ noon_thirty < c <= cutoff)
  /\ (forall m, closing_instant parse_iso m = Some noon_thirty -> ~ In m result)
  /\ (forall m, In m (fetched_records nested_events "KXBTC") ->
         finalized m = false ->
         closing_instant parse_iso m = Some cutoff -> noon_thirty < cutoff ->
         In m result)
  /\ (forall m, finalized m = true -> ~ In m result).
Proof.
  exact (fetch_hourly_markets_selects parse_iso noon_thirty nested_events
           "KXBTC" 1
           [EvGet "KXBTC" true; EvLog WARNING (MsgFetched "KXBTC" 1 true);
            EvLog WARNING (MsgHourly "KXBTC" 2 1)]
           [closes_in_window; closes_at_cutoff] eq_refl).
Defined.

(** The three boundary cases on [is_hourly] itself. *)
Example is_hourly_at_now :
  is_hourly parse_iso noon_thirty (noon_thirty + 3600000000) closes_now
  = Returned false.
Proof. reflexivity. Qed.

Example is_hourly_at_cutoff :
  is_hourly parse_iso noon_thirty (noon_thirty + 3600000000) closes_at_cutoff
  = Returned true.
Proof. reflexivity. Qed.

(** The "Z" suffix is read as UTC through the replacement: the reader
    itself does not take it. *)
Example z_suffix_is_read_as_utc :
  parse_iso "2025-06-01T13:00:00Z" = None
  /\ closing_instant parse_iso closes_in_window
     = Some (noon_thirty + 1800000000).
Proof. split; reflexivity. Qed.

(** A finalized record is rejected before its close_time is looked at. *)
Lemma is_hourly_finalized (fromisoformat : string -> option datetime)
    (now cutoff : Z) (kv : dict) (s : string) :
  dict_get kv "status" (JStr "") = JStr s ->
  caseless_eqb s "finalized" = true ->
  is_hourly fromisoformat now cutoff (JDict kv) = Returned false.
Proof.
  intros Hs Hf. unfold is_hourly; simpl. rewrite Hs; simpl.
  rewrite lowered_is_finalized, Hf. reflexivity.
Qed.

(** The part of C4 that the code delivers: a record whose close_time is
    missing, null, empty or otherwise falsy, or a string that does not
    parse, is left out and nothing is raised. *)
Lemma is_hourly_unreadable_close_time
    (fromisoformat : string -> option datetime) (now cutoff : Z)
    (kv : dict) (s : string) :
  dict_get kv "status" (JStr "") = JStr s ->
  truthy (dict_get kv "close_time" JNull) = false
  \/ (exists c, dict_get kv "close_time" JNull = JStr c
                /\ fromisoformat (str_replace "Z" "+00:00" c) = None) ->
  is_hourly fromisoformat now cutoff (JDict kv) = Returned false.
Proof.
  intros Hs H. unfold is_hourly; simpl. rewrite Hs; simpl.
  destruct (String.eqb (str_lower s) "finalized"); [reflexivity|].
  destruct H as [H|(c & Hc & Hp)].
  - rewrite H. reflexivity.
  - rewrite Hc; simpl. destruct (String.eqb c ""); simpl; [reflexivity|].
    rewrite Hp. reflexivity.
Qed.

(** Where it breaks: a close_time that is truthy but not a string has no
    [replace] method, and AttributeError is not a ValueError. *)
Lemma is_hourly_close_time_not_a_string
    (fromisoformat : string -> option datetime) (now cutoff : Z)
    (kv : dict) (s : string) :
  dict_get kv "status" (JStr "") = JStr s ->
  caseless_eqb s "finalized" = false ->
  truthy (dict_get kv "close_time" JNull) = true ->
  (forall c, dict_get kv "close_time" JNull <> JStr c) ->
  is_hourly fromisoformat now cutoff (JDict kv) = Raised AttributeError.
Proof.
  intros Hs Hf Ht Hn. unfold is_hourly; simpl. rewrite Hs; simpl.
  rewrite lowered_is_finalized, Hf.
  destruct (dict_get kv "close_time" JNull) as [| | | |c| |]; simpl in *;
    try rewrite Ht; try reflexivity; try discriminate.
  now destruct (Hn c).
Qed.

(** A close_time without an offset parses to a naive datetime, which
    cannot be compared with the aware [now]. *)
Lemma is_hourly_naive_close_time
    (fromisoformat : string -> option datetime) (now cutoff : Z)
    (kv : dict) (s c : string) (wall : Z) :
  dict_get kv "status" (JStr "") = JStr s ->
  caseless_eqb s "finalized" = false ->
  dict_get kv "close_time" JNull = JStr c -> c <> "" ->
  fromisoformat (str_replace "Z" "+00:00" c) = Some (Naive wall) ->
  is_hourly fromisoformat now cutoff (JDict kv) = Raised TypeError.
Proof.
  intros Hs Hf Hc Hne Hp. unfold is_hourly; simpl. rewrite Hs; simpl.
  rewrite lowered_is_finalized, Hf, Hc; simpl.
  destruct (String.eqb_spec c ""); [contradiction|]. simpl.
  rewrite Hp. reflexivity.
Qed.

(** One raising record is enough to lose the whole list. *)
Lemma keep_hourly_raises (fromisoformat : string -> option datetime)
    (now cutoff : Z) (before after : list json) (bad : json) (e : exn) :
  Forall (fun m => well_shaped fromisoformat m = true) before ->
  is_hourly fromisoformat now cutoff bad = Raised e ->
  keep_hourly fromisoformat now cutoff (before ++ bad :: after) = Raised e.
Proof.
  intros Hb Hbad. induction Hb as [|m before Hm _ IH]; simpl.
  - rewrite Hbad. reflexivity.
  - rewrite (is_hourly_well_shaped _ _ _ m Hm), IH. reflexivity.
Qed.

(** On a document that lists well-shaped markets under "markets", and
    with the cutoff in range, the call does return. *)
Lemma hourly_of_well_shaped (fromisoformat : string -> option datetime)
    (now : Z) (data : dict) (series : string) (hours : Z) (items : list json) :
  lookup_key "markets" data = Some (JList items) ->
  (min_instant <= now + hours * 3600000000 <= max_instant) ->
  Forall (fun m => well_shaped fromisoformat m = true) items ->
  snd (hourly_of fromisoformat now (Some data) series hours)
  = Returned (List.filter
                (qualifies fromisoformat now (now + hours * 3600000000)) items).
Proof.
  intros Hm Hr Hs. unfold hourly_of.
  destruct data as [|p kv]; [discriminate|].
  unfold add_hours.
  replace ((min_instant <=? now + hours * 3600000000)
           && (now + hours * 3600000000 <=? max_instant)) with true
    by (symmetry; apply andb_true_iff; split; apply Z.leb_le; lia).
  unfold dict_contains, dict_get. rewrite Hm.
  cbn [lift mbind io_bind mret io_ret result_bind py_iter].
  rewrite (keep_hourly_well_shaped _ _ _ _ Hs). reflexivity.
Qed.

(** C4 (fails on the code). A response whose second market carries its
    close_time as the number 1748782800: [is_hourly] raises
    AttributeError on that record, nothing catches it, and
    [fetch_hourly_markets] fails instead of returning the first market. *)
Theorem fetch_hourly_markets_numeric_close_time_raises :
  fetch_hourly_markets parse_iso noon_thirty epoch_close_time "KXBTC" 1
  = ([EvGet "KXBTC" true; EvLog WARNING (MsgFetched "KXBTC" 0 true)],
     Raised AttributeError).
Proof. reflexivity. Qed.

(** Without the numeric record the same call returns the first market. *)
Example fetch_hourly_markets_without_bad_record :
  snd (fetch_hourly_markets parse_iso noon_thirty
         (answer (JDict [("markets", JList [closes_in_window])])) "KXBTC" 1)
  = Returned [closes_in_window].
Proof. reflexivity. Qed.

(** ** The trading loop *)

(** One step of a computation in [io]: unfold the binds and the
    primitive effects, nothing else. *)
Ltac io_step :=
  cbn [lift mbind io_bind mret io_ret app st_write emit raise].

Lemma posts_app (t t' : list event) : posts (t ++ t') = posts t ++ posts t'.
Proof.
  induction t as [|ev t IH]; simpl; [reflexivity|].
  destruct ev; simpl; rewrite ?IH; reflexivity.
Qed.

(** What one iteration can do to the session state: nothing, or one
    entry of [positions] written. The other fields are never touched. *)
Lemma trade_market_state (bot : KalshiBot) (post : nat -> order -> http_outcome)
    (market : json) (st st' : session_state) (sent : nat) (t : list event) :
  trade_market bot post market st sent = (t, Returned st') ->
  st' = st
  \/ exists name pos,
       st' = {| candles := candles st;
                positions := <[name := pos]> (positions st);
                cumulative_pnl := cumulative_pnl st |}.
Proof.
  unfold trade_market.
  destruct market as [| | | | | |kv]; try discriminate.
  cbn [py_get lift mbind io_bind mret io_ret app].
  destruct (negb _ || _).
  { intros H; inversion H; now left. }
  destruct (choose_side bot _ _) as [[[side chosen]|]|e]; io_step;
    [| intros H; inversion H; now left | discriminate].
  destruct (as_number chosen) as [p|]; io_step;
    [|discriminate].
  destruct (price_in_cents p) as [cents|e]; io_step;
    [|discriminate].
  destruct (dict_get kv "ticker" JNull) as [| | | |name| |]; io_step;
    try discriminate.
  match goal with
  | |- context [if String.eqb side "yes" then ?a else ?b] =>
      destruct (if String.eqb side "yes" then a else b) as [t1 [[doc|]|e]]
  end; io_step;
    [| intros H; inversion H; now left | discriminate].
  destruct (truthy doc); io_step;
    intros H; inversion H; [right; eauto | now left].
Qed.

Lemma trade_market_pnl (bot : KalshiBot) (post : nat -> order -> http_outcome)
    (market : json) (st st' : session_state) (sent : nat) (t : list event) :
  trade_market bot post market st sent = (t, Returned st') ->
  cumulative_pnl st' = cumulative_pnl st /\ candles st' = candles st.
Proof.
  intros H. apply trade_market_state in H as [->|(name & pos & ->)];
    split; reflexivity.
Qed.

Lemma trade_loop_pnl (bot : KalshiBot) (post : nat -> order -> http_outcome)
    (markets : list json) (st : session_state) (sent : nat) :
  cumulative_pnl (fst (trade_loop bot post markets st sent)) = cumulative_pnl st
  /\ candles (fst (trade_loop bot post markets st sent)) = candles st.
Proof.
  revert st sent. induction markets as [|m markets IH]; intros st sent; simpl.
  - split; reflexivity.
  - destruct (trade_market bot post m st sent) as [t [st'|e]] eqn:Hm; simpl.
    + destruct (trade_market_pnl _ _ _ _ _ _ _ Hm) as [Hp Hc].
      specialize (IH st' (sent + List.length (posts t))%nat).
      destruct (trade_loop bot post markets st' _) as [st'' [t' r]].
      simpl in *. destruct IH as [IH1 IH2]. split; congruence.
    + split; reflexivity.
Qed.

Lemma auto_trade_logic_pnl (bot : KalshiBot) (post : nat -> order -> http_outcome)
    (markets : list json) (st : session_state) :
  cumulative_pnl (fst (auto_trade_logic bot post markets st)) = cumulative_pnl st.
Proof.
  unfold auto_trade_logic.
  destruct (num_ge _ _); [reflexivity|].
  destruct (num_le _ _); [reflexivity|].
  apply trade_loop_pnl.
Qed.

Lemma update_candles_pnl (now : Z) (price : option float) (interval : Z)
    (st : session_state) :
  cumulative_pnl (update_candles now price interval st) = cumulative_pnl st.
Proof. destruct price; reflexivity. Qed.

Lemma run_script_pnl (i : run_inputs) (st : session_state) :
  cumulative_pnl (fst (run_script i st)) = cumulative_pnl st.
Proof.
  unfold run_script. destruct (auto_trading i); simpl.
  - rewrite auto_trade_logic_pnl. apply update_candles_pnl.
  - apply update_candles_pnl.
Qed.

(** C10. No run of the script changes cumulative_pnl, whatever the
    markets, the answers of the order endpoint and the positions written,
    and also when the run ends with an exception: [update_pnl] is not
    part of any run. A session therefore keeps the initial 0.0 forever. *)
Theorem cumulative_pnl_never_changes :
  forall (runs : list run_inputs) (st : session_state),
    cumulative_pnl (session_after runs st) = cumulative_pnl st
    /\ cumulative_pnl (session_after runs initial_state) = lit 0.0.
Proof.
  assert (H : forall runs st,
             cumulative_pnl (session_after runs st) = cumulative_pnl st).
  { induction runs as [|i runs IH]; intros st; simpl; [reflexivity|].
    unfold session_after in *; simpl. rewrite IH. apply run_script_pnl. }
  intros runs st. split; [apply H|]. rewrite H. reflexivity.
Qed.

(** A run in which an order is confirmed and a position recorded. *)
Example positions_change_pnl_does_not :
  let st := fst (auto_trade_logic default_bot confirms
                   [quoted "KXBTC-A" (JFloat (lit 0.35)) JNull] initial_state) in
  positions st !! "KXBTC-A"
    = Some {| pos_side := "yes"; entry_price := NFloat (lit 0.35);
              quantity := 10 |}
  /\ cumulative_pnl st = lit 0.0.
Proof. split; vm_compute; reflexivity. Qed.

(** The helper would change it, were it called. *)
Example update_pnl_adds :
  cumulative_pnl (update_pnl (lit 2.5) initial_state) = lit 2.5.
Proof. vm_compute. reflexivity. Qed.

(** C5. A cycle that starts with cumulative_pnl >= profit_goal or with
    cumulative_pnl <= -max_drawdown, in particular one that starts with
    cumulative_pnl equal to profit_goal, posts no order, leaves the
    session state (so the positions) as it was and ends normally. *)
Theorem halted_cycle_places_no_order :
  forall (bot : KalshiBot) (post : nat -> order -> http_outcome)
         (markets : list json) (st : session_state),
    num_ge (NFloat (cumulative_pnl st)) (profit_goal bot) = true
    \/ num_le (NFloat (cumulative_pnl st)) (num_neg (max_drawdown bot)) = true
    \/ num_compare (NFloat (cumulative_pnl st)) (profit_goal bot) = Some Eq ->
    posts (fst (snd (auto_trade_logic bot post markets st))) = []
    /\ fst (auto_trade_logic bot post markets st) = st
    /\ snd (snd (auto_trade_logic bot post markets st)) = Returned tt.
Proof.
  intros bot post markets st H. unfold auto_trade_logic.
  destruct (num_ge (NFloat (cumulative_pnl st)) (profit_goal bot)) eqn:Hg;
    [repeat split|].
  destruct (num_le (NFloat (cumulative_pnl st)) (num_neg (max_drawdown bot)))
    eqn:Hd; [repeat split|].
  destruct H as [H|[H|H]]; try discriminate.
  apply num_eq_ge in H. congruence.
Qed.

Lemma halted_cycle_places_no_order_witness :
  posts (fst (snd (auto_trade_logic default_bot confirms
                     [quoted "KXBTC-A" (JFloat (lit 0.35)) JNull] at_goal))) = []
  /\ fst (auto_trade_logic default_bot confirms
            [quoted "KXBTC-A" (JFloat (lit 0.35)) JNull] at_goal) = at_goal
  /\ snd (snd (auto_trade_logic default_bot confirms
                 [quoted "KXBTC-A" (JFloat (lit 0.35)) JNull] at_goal))
     = Returned tt.
Proof.
  apply (halted_cycle_places_no_order default_bot confirms
           [quoted "KXBTC-A" (JFloat (lit 0.35)) JNull] at_goal).
  right; right. vm_compute. reflexivity.
Defined.

(** The same market with no PnL yet is traded. *)
Example running_cycle_places_order :
  List.length (posts (fst (snd (auto_trade_logic default_bot confirms
                     [quoted "KXBTC-A" (JFloat (lit 0.35)) JNull]
                     initial_state)))) = 1%nat.
Proof. vm_compute. reflexivity. Qed.

(** ** The choice of a side *)

Lemma num_compare_defined (a b : number) :
  not_nan a = true -> not_nan b = true -> exists c, num_compare a b = Some c.
Proof.
  destruct a as [x|x], b as [y|y]; simpl; intros Ha Hb; eauto.
  - destruct y; simpl in *; try discriminate; eauto.
  - destruct x; simpl in *; try discriminate; eauto.
  - apply SFcompare_defined; now apply negb_true_iff.
Qed.

Lemma num_compare_not_nan (a b : number) (c : comparison) :
  num_compare a b = Some c -> not_nan a = true /\ not_nan b = true.
Proof.
  destruct a as [x|x], b as [y|y]; simpl; intros H; auto.
  - destruct y; simpl in *; try discriminate; auto.
  - destruct x; simpl in *; try discriminate; auto.
  - destruct x, y; simpl in *; try discriminate; auto.
Qed.

(** A price inside the entry range is a number, not a NaN. *)
Lemma should_enter_trade_not_nan (bot : KalshiBot) (p : number) :
  should_enter_trade bot p = true -> not_nan p = true.
Proof.
  unfold should_enter_trade. rewrite andb_true_iff. intros [H _].
  apply num_le_defined in H as [c H].
  now apply num_compare_not_nan in H.
Qed.

Lemma enters_true (bot : KalshiBot) (bid : json) :
  enters bot bid = Returned true ->
  is_None bid = false
  /\ exists p, as_number bid = Some p /\ should_enter_trade bot p = true.
Proof.
  unfold enters. destruct (is_None bid); [discriminate|].
  destruct (as_number bid) as [p|]; [|discriminate].
  intros H; inversion H. eauto.
Qed.

Lemma choose_side_some_present (bot : KalshiBot) (yes_bid no_bid : json)
    (choice : string * json) :
  choose_side bot yes_bid no_bid = Returned (Some choice) ->
  is_None yes_bid && is_None no_bid = false.
Proof.
  unfold choose_side, enters.
  destruct (is_None yes_bid), (is_None no_bid); simpl; try reflexivity.
  discriminate.
Qed.

Lemma place_trade_posts (post : order -> http_outcome)
    (action side ticker : string) (count : Z) (order_type : string)
    (yes_price no_price floor : Z) (id : string) :
  posts (fst (place_trade post action side ticker count order_type
                          yes_price no_price floor id))
  = [Order action id count floor side ticker order_type yes_price no_price].
Proof.
  unfold place_trade.
  destruct (post _) as [e|[bad [doc|e] txt]]; [reflexivity|..];
    destruct bad; reflexivity.
Qed.

(** A market for which neither side enters costs no order. *)
Lemma trade_market_no_action (bot : KalshiBot)
    (post : nat -> order -> http_outcome) (kv : dict)
    (st : session_state) (sent : nat) :
  choose_side bot (dict_get kv "yes_bid" JNull) (dict_get kv "no_bid" JNull)
    = Returned None ->
  posts (fst (trade_market bot post (JDict kv) st sent)) = []
  /\ snd (trade_market bot post (JDict kv) st sent) = Returned st.
Proof.
  intros H. unfold trade_market.
  cbn [py_get lift mbind io_bind mret io_ret app].
  destruct (negb _ || _); [split; reflexivity|].
  rewrite H. split; reflexivity.
Qed.

(** A market with a ticker and a chosen side costs exactly one order,
    a buy on that side at the chosen price in cents. *)
Lemma trade_market_posts_chosen (bot : KalshiBot)
    (post : nat -> order -> http_outcome) (kv : dict)
    (st : session_state) (sent : nat)
    (name side : string) (chosen : json) (p : number) (cents : Z) :
  dict_get kv "ticker" JNull = JStr name -> name <> "" ->
  choose_side bot (dict_get kv "yes_bid" JNull) (dict_get kv "no_bid" JNull)
    = Returned (Some (side, chosen)) ->
  as_number chosen = Some p ->
  price_in_cents p = Returned cents ->
  posts (fst (trade_market bot post (JDict kv) st sent))
  = [if String.eqb side "yes"
     then Order "buy" (String.append "order_" (str_replace "-" "_" name))
                (trade_size bot) 0 "yes" name "Market" cents 0
     else Order "buy" (String.append "order_" (str_replace "-" "_" name))
                (trade_size bot) 0 "no" name "Market" 0 cents].
Proof.
  intros Ht Hne Hc Hp Hcents. unfold trade_market.
  cbn [py_get lift mbind io_bind mret io_ret app].
  rewrite Ht, (choose_side_some_present _ _ _ _ Hc), Hc.
  assert (Htr : truthy (JStr name) = true).
  { simpl. destruct (String.eqb_spec name ""); [contradiction|reflexivity]. }
  rewrite Htr.
  cbn [negb orb lift mbind io_bind mret io_ret app st_write emit raise].
  rewrite Hp.
  io_step.
  rewrite Hcents.
  io_step.
  destruct (String.eqb side "yes");
    match goal with
    | |- context [place_trade ?a ?b ?c ?d ?e ?f ?g ?h ?i ?j] =>
        pose proof (place_trade_posts a b c d e f g h i j) as Hpost;
        destruct (place_trade a b c d e f g h i j) as [t1 [[doc|]|err]]
    end; simpl in Hpost; io_step;
    try (destruct (truthy doc); io_step);
    cbn [fst posts]; rewrite ?posts_app; rewrite ?Hpost; reflexivity.
Qed.

(** C6. When both bids are present and both enter, the side with the
    lower bid is chosen and "yes" at equal bids; when only one side
    enters, that side is chosen; when neither enters nothing is chosen
    and the iteration posts no order for that market. *)
Theorem choose_side_takes_lower_bid :
  forall (bot : KalshiBot) (yes_bid no_bid : json),
    (enters bot yes_bid = Returned true -> enters bot no_bid = Returned true ->
       exists y n,
         as_number yes_bid = Some y /\ as_number no_bid = Some n
         /\ ((num_lt y n = true
              /\ choose_side bot yes_bid no_bid = Returned (Some ("yes", yes_bid)))
             \/ (num_compare y n = Some Eq
                 /\ choose_side bot yes_bid no_bid = Returned (Some ("yes", yes_bid)))
             \/ (num_lt n y = true
                 /\ choose_side bot yes_bid no_bid = Returned (Some ("no", no_bid)))))
    /\ (enters bot yes_bid = Returned true -> enters bot no_bid = Returned false ->
          choose_side bot yes_bid no_bid = Returned (Some ("yes", yes_bid)))
    /\ (enters bot yes_bid = Returned false -> enters bot no_bid = Returned true ->
          choose_side bot yes_bid no_bid = Returned (Some ("no", no_bid)))
    /\ (enters bot yes_bid = Returned false -> enters bot no_bid = Returned false ->
          choose_side bot yes_bid no_bid = Returned None
          /\ forall (post : nat -> order -> http_outcome) (kv : dict)
                    (st : session_state) (sent : nat),
               dict_get kv "yes_bid" JNull = yes_bid ->
               dict_get kv "no_bid" JNull = no_bid ->
               posts (fst (trade_market bot post (JDict kv) st sent)) = []).
Proof.
  intros bot yes_bid no_bid. split; [|split; [|split]].
  - intros Hy Hn.
    destruct (enters_true _ _ Hy) as (_ & y & Hay & Hey).
    destruct (enters_true _ _ Hn) as (_ & n & Han & Hen).
    exists y, n. split; [exact Hay|]. split; [exact Han|].
    destruct (num_compare_defined y n
                (should_enter_trade_not_nan _ _ Hey)
                (should_enter_trade_not_nan _ _ Hen)) as [c Hc].
    unfold choose_side. rewrite Hy, Hn. simpl. unfold py_le.
    rewrite Hay, Han. simpl.
    destruct c.
    + right; left. split; [exact Hc|]. unfold num_le. rewrite Hc. reflexivity.
    + left. unfold num_lt, num_le. rewrite Hc. split; reflexivity.
    + right; right.
      assert (Hle : num_le y n = false) by (unfold num_le; now rewrite Hc).
      rewrite Hle. split; [|reflexivity].
      exact (num_le_false_lt y n Gt Hc Hle).
  - intros Hy Hn. unfold choose_side. rewrite Hy, Hn. reflexivity.
  - intros Hy Hn. unfold choose_side. rewrite Hy, Hn. reflexivity.
  - intros Hy Hn.
    assert (Hc : choose_side bot yes_bid no_bid = Returned None).
    { unfold choose_side. rewrite Hy, Hn. reflexivity. }
    split; [exact Hc|].
    intros post kv st sent Hky Hkn. subst.
    now apply trade_market_no_action.
Qed.

(** The example of the specification: both bids at 0.40 select "yes". *)
Example tie_selects_yes :
  choose_side default_bot (JFloat (lit 0.40)) (JFloat (lit 0.40))
  = Returned (Some ("yes", JFloat (lit 0.40))).
Proof. vm_compute. reflexivity. Qed.

Example lower_no_bid_selects_no :
  choose_side default_bot (JFloat (lit 0.45)) (JFloat (lit 0.40))
  = Returned (Some ("no", JFloat (lit 0.40))).
Proof. vm_compute. reflexivity. Qed.

(** Two qualifying markets, one per side: two orders, two positions. *)
Example two_markets_two_orders :
  let run := auto_trade_logic wide_bot confirms
               [quoted "KXBTC-A" (JFloat (lit 0.35)) JNull;
                quoted "KXBTC-B" JNull (JFloat (lit 0.20))] initial_state in
  map side (posts (fst (snd run))) = ["yes"; "no"]
  /\ map ticker (posts (fst (snd run))) = ["KXBTC-A"; "KXBTC-B"]
  /\ List.length (map_to_list (positions (fst run))) = 2%nat.
Proof. repeat split; vm_compute; reflexivity. Qed.

(** ** The price in cents *)

(** C9 (fails on the code). The product is a double product and [int]
    truncates it: 0.29 * 100 is 28.999999999999996, so a bid of 0.29 is
    submitted as 28 cents, and with the default thresholds a bid of 0.57
    as 56 cents. *)
Theorem bid_of_29_cents_is_submitted_as_28 :
  price_in_cents (NFloat (lit 0.29)) = Returned 28
  /\ map yes_price
       (posts (fst (snd (auto_trade_logic wide_bot confirms
                           [quoted "KXBTC-A" (JFloat (lit 0.29)) JNull]
                           initial_state)))) = [28]
  /\ map no_price
       (posts (fst (snd (auto_trade_logic default_bot confirms
                           [quoted "KXBTC-A" JNull (JFloat (lit 0.57))]
                           initial_state)))) = [56].
Proof. repeat split; vm_compute; reflexivity. Qed.

(** The hardware product agrees with the one computed from the
    IEEE 754 definition. *)
Example product_matches_hardware :
  fmul (lit 0.29) (float_of_Z 100) = lit (0.29 * 100)
  /\ lit (0.29 * 100) = lit 28.999999999999996.
Proof. split; vm_compute; reflexivity. Qed.

(** Among the two-decimal prices 0.00 .. 1.00 the cent is lost at 0.29,
    0.57 and 0.58 and nowhere else. *)
Lemma two_decimal_prices_losing_a_cent :
  List.filter (fun k => match price_in_cents (NFloat (hundredths k)) with
                        | Returned c => negb (c =? k)
                        | Raised _ => true
                        end)
              (map Z.of_nat (seq 0 101))
  = [29; 57; 58].
Proof. vm_compute. reflexivity. Qed.

Example hundredths_is_the_literal :
  hundredths 29 = lit 0.29 /\ hundredths 57 = lit 0.57 /\ hundredths 40 = lit 0.40.
Proof. repeat split; vm_compute; reflexivity. Qed.

(** On an integer price the conversion is exact. *)
Lemma price_in_cents_int (z : Z) : price_in_cents (NInt z) = Returned (z * 100).
Proof. reflexivity. Qed.

(** ** Candles *)

Lemma Qltb_lt (x y : Q) : Qltb x y = true <-> (x < y)%Q.
Proof.
  unfold Qltb. rewrite Qlt_alt. destruct (Qcompare x y); split; congruence.
Qed.

(** On numbers [py_max] and [py_min] are the maximum and the minimum. *)
Lemma py_max_upper (a b : float) :
  is_nan a = false -> is_nan b = false ->
  SFleb a (py_max a b) = true /\ SFleb b (py_max a b) = true
  /\ (py_max a b = a \/ py_max a b = b).
Proof.
  intros Ha Hb. unfold py_max. destruct (SFltb a b) eqn:H.
  - split; [now apply SFltb_leb|]. split; [now apply SFleb_refl|now right].
  - split; [now apply SFleb_refl|]. split; [now apply SFltb_false_leb|now left].
Qed.

Lemma py_min_lower (a b : float) :
  is_nan a = false -> is_nan b = false ->
  SFleb (py_min a b) a = true /\ SFleb (py_min a b) b = true
  /\ (py_min a b = a \/ py_min a b = b).
Proof.
  intros Ha Hb. unfold py_min. destruct (SFltb b a) eqn:H.
  - split; [now apply SFltb_leb|]. split; [now apply SFleb_refl|now right].
  - split; [now apply SFleb_refl|]. split; [now apply SFltb_false_leb|now left].
Qed.

(** C7. A sample p at time T with bucket size N: on an empty sequence a
    candle open = high = low = close = p at T is appended; else, if the
    minutes since the last candle started are strictly fewer than N, the
    last candle gets high = max(high, p), low = min(low, p), close = p and
    keeps its open and time; else a new candle is appended. Prices 10, 12,
    8 within one bucket give the one candle 10/12/8/8. *)
Theorem update_candles_buckets :
  forall (now : Z) (p : float) (interval : Z) (st : session_state),
    let after := candles (update_candles now (Some p) interval st) in
    (candles st = [] -> after = [Candle now p p p p])
    /\ (forall init last_row, candles st = init ++ [last_row] ->
          (minutes_between now (time last_row) < inject_Z interval)%Q ->
          after = init ++ [Candle (time last_row) (open last_row)
                                  (py_max (high last_row) p)
                                  (py_min (low last_row) p) p])
    /\ (forall init last_row, candles st = init ++ [last_row] ->
          ~ (minutes_between now (time last_row) < inject_Z interval)%Q ->
          after = init ++ [last_row; Candle now p p p p])
    /\ candles (feed [Sample 0 (Some (lit 10)) 5;
                      Sample 60000000 (Some (lit 12)) 5;
                      Sample 120000000 (Some (lit 8)) 5] initial_state)
       = [Candle 0 (lit 10) (lit 12) (lit 8) (lit 8)].
Proof.
  intros now p interval st after. subst after. unfold update_candles. simpl.
  split; [|split; [|split]].
  - intros ->. reflexivity.
  - intros init last_row -> Hlt. rewrite last_snoc.
    apply Qltb_lt in Hlt. rewrite Hlt, removelast_last. reflexivity.
  - intros init last_row -> Hge. rewrite last_snoc.
    destruct (Qltb _ _) eqn:Hlt; [apply Qltb_lt in Hlt; contradiction|].
    rewrite <- app_assoc. reflexivity.
  - vm_compute. reflexivity.
Qed.

(** A fourth price once the bucket has elapsed opens a new candle. *)
Example fourth_price_opens_a_candle :
  candles (feed [Sample 0 (Some (lit 10)) 5;
                 Sample 60000000 (Some (lit 12)) 5;
                 Sample 120000000 (Some (lit 8)) 5;
                 Sample 300000000 (Some (lit 9)) 5] initial_state)
  = [Candle 0 (lit 10) (lit 12) (lit 8) (lit 8);
     Candle 300000000 (lit 9) (lit 9) (lit 9) (lit 9)].
Proof. vm_compute. reflexivity. Qed.

(** A cycle whose price fetch failed leaves the candles alone. *)
Lemma update_candles_without_price (now interval : Z) (st : session_state) :
  update_candles now None interval st = st.
Proof. reflexivity. Qed.

(** What the invariant says of a candle, order fact by order fact. *)
Lemma well_formed_bounds (c : candle) :
  well_formed c ->
  SFleb (open c) (high c) = true /\ SFleb (low c) (open c) = true.
Proof.
  unfold well_formed, py_max, py_min. intros [Hh Hl]. split.
  - destruct (SFltb (open c) (close c)) eqn:H; [|exact Hh].
    apply SFltb_leb in H. exact (SFleb_trans _ _ _ H Hh).
  - destruct (SFltb (close c) (open c)) eqn:H; [|exact Hl].
    apply SFltb_leb in H. exact (SFleb_trans _ _ _ Hl H).
Qed.

Lemma new_row_well_formed (now : Z) (p : float) :
  is_nan p = false -> well_formed (new_row now p).
Proof.
  intros Hp. unfold well_formed, new_row, py_max, py_min; simpl.
  destruct (SFltb p p); split; now apply SFleb_refl.
Qed.

Lemma fold_price_well_formed (p : float) (c : candle) :
  is_nan p = false -> well_formed c -> well_formed (fold_price p c).
Proof.
  intros Hp Hc. destruct (well_formed_bounds c Hc) as [Hoh Hlo].
  destruct (SFleb_not_nan _ _ Hoh) as [_ Hh].
  destruct (SFleb_not_nan _ _ Hlo) as [Hl _].
  unfold well_formed, fold_price, py_max, py_min; simpl. split.
  - destruct (SFltb (open c) p) eqn:Hop, (SFltb (high c) p) eqn:Hhp.
    + now apply SFleb_refl.
    + now apply SFltb_false_leb.
    + apply SFltb_leb in Hhp. exact (SFleb_trans _ _ _ Hoh Hhp).
    + exact Hoh.
  - destruct (SFltb p (open c)) eqn:Hpo, (SFltb p (low c)) eqn:Hpl.
    + now apply SFleb_refl.
    + now apply SFltb_false_leb.
    + apply SFltb_leb in Hpl. exact (SFleb_trans _ _ _ Hpl Hlo).
    + exact Hlo.
Qed.

Lemma update_candles_well_formed (now : Z) (price : option float)
    (interval : Z) (st : session_state) :
  match price with Some p => is_nan p = false | None => True end ->
  Forall well_formed (candles st) ->
  Forall well_formed (candles (update_candles now price interval st)).
Proof.
  destruct price as [p|]; [|intros _ H; exact H].
  intros Hp Hst. unfold update_candles; simpl.
  destruct (last (candles st)) as [last_row|] eqn:Hlast.
  - apply last_Some in Hlast as [init Hinit]. rewrite Hinit in *.
    apply Forall_app in Hst as [Hinit_ok Hlast_ok].
    destruct (Qltb _ _).
    + rewrite removelast_last. apply Forall_app. split; [exact Hinit_ok|].
      constructor; [|constructor]. apply fold_price_well_formed; [exact Hp|].
      now inversion Hlast_ok.
    + apply Forall_app. split; [now apply Forall_app|].
      constructor; [|constructor]. now apply new_row_well_formed.
  - constructor; [|constructor]. now apply new_row_well_formed.
Qed.

(** C8. Starting from candles that satisfy high >= max(open, close) and
    low <= min(open, close), every candle of the sequence satisfies it
    after any sequence of updates with prices that are numbers, be the
    update a fresh candle or a price folded into the last one. *)
Theorem candles_stay_well_formed :
  forall (samples : list sample) (st : session_state),
    Forall is_number samples ->
    Forall well_formed (candles st) ->
    Forall well_formed (candles (feed samples st)).
Proof.
  induction samples as [|s samples IH]; intros st Hs Hst; [exact Hst|].
  inversion Hs as [|? ? Hnum Hrest]; subst.
  unfold feed; simpl. apply IH; [exact Hrest|].
  apply update_candles_well_formed; [exact Hnum|exact Hst].
Qed.

Lemma candles_stay_well_formed_witness :
  Forall well_formed
    (candles (feed [Sample 0 (Some (lit 10)) 5;
                    Sample 60000000 (Some (lit 12)) 5;
                    Sample 120000000 None 5;
                    Sample 180000000 (Some (lit 8)) 5;
                    Sample 300000000 (Some (lit 9)) 5] initial_state)).
Proof.
  apply (candles_stay_well_formed
           [Sample 0 (Some (lit 10)) 5;
            Sample 60000000 (Some (lit 12)) 5;
            Sample 120000000 None 5;
            Sample 180000000 (Some (lit 8)) 5;
            Sample 300000000 (Some (lit 9)) 5] initial_state).
  - repeat constructor.
  - constructor.
Defined.

(** A NaN sample is where the order reasoning stops: no comparison with
    it holds, not even with itself. *)
Example nan_is_not_ordered :
  SFleb S754_nan S754_nan = false /\ ~ well_formed (new_row 0 S754_nan).
Proof. split; [reflexivity|]. intros [H _]. discriminate H. Qed.

(* ===================================================================== *)
(** * Further properties of the three modules                             *)
(* ===================================================================== *)

(** ** [fetch_event_data] *)

(** X1. [fetch_event_data] lets no exception out. It returns the
    document exactly when a response arrived with a good status, its
    body is a JSON object, and the value under "events", if any, has a
    length; in every other case, also when "events" is null, it
    returns None. *)
Theorem fetch_event_data_value :
  forall (get : http_outcome) (series : string) (nested : bool),
    (exists v, snd (fetch_event_data get series nested) = Returned v)
    /\ (forall data,
          snd (fetch_event_data get series nested) = Returned (Some data)
          <-> exists r, get = Answered r /\ status_error r = false
                        /\ body r = Returned (JDict data)
                        /\ sized (dict_get data "events" (JList [])) = true).
Proof.
  intros get series nested. unfold fetch_event_data, sized.
  destruct get as [e|[bad [doc|e] txt]].
  - split; [eexists; reflexivity|]. intros data; split.
    + discriminate.
    + intros (r & H & _). discriminate.
  - destruct bad.
    { split; [eexists; reflexivity|]. intros data; split; [discriminate|].
      intros (r & H & Hs & _). inversion H; subst. discriminate. }
    destruct doc as [| | | | | |kv];
      try (split; [eexists; reflexivity|]; intros data; split;
           [discriminate | intros (r & H & _ & Hb & _); inversion H; subst;
                           discriminate]).
    unfold resp_json, py_get; simpl.
    destruct (py_len (dict_get kv "events" (JList []))) as [n|e] eqn:Hlen;
      simpl.
    + split; [eexists; reflexivity|]. intros data; split.
      * intros H; inversion H; subst. eexists; repeat split. now rewrite Hlen.
      * intros (r & H & _ & Hb & _). inversion H; subst. simpl in Hb.
        inversion Hb; subst. reflexivity.
    + split; [eexists; reflexivity|]. intros data; split; [discriminate|].
      intros (r & H & _ & Hb & Hs). inversion H; subst. simpl in Hb.
      inversion Hb; subst. rewrite Hlen in Hs. discriminate.
  - destruct bad; (split; [eexists; reflexivity|]); intros data;
      (split; [discriminate|]);
      intros (r & H & Hs & Hb & _); inversion H; subst; discriminate.
Qed.

(** The document {"events": null} is a failed fetch: [len(None)] raises
    in the log statement. *)
Example fetch_event_data_null_events :
  snd (fetch_event_data (answer (JDict [("events", JNull)])) "KXBTC" true)
  = Returned None.
Proof. reflexivity. Qed.

(** ** [fetch_hourly_markets] *)

(** X2. When [fetch_event_data] yields None or an empty document,
    [fetch_hourly_markets] returns the empty list, whatever [hours] is:
    the cutoff is not even computed. *)
Theorem fetch_hourly_markets_without_data :
  forall (fromisoformat : string -> option datetime) (now : Z)
         (get : http_outcome) (series : string) (hours : Z),
    snd (fetch_event_data get series true) = Returned None
    \/ snd (fetch_event_data get series true) = Returned (Some []) ->
    snd (fetch_hourly_markets fromisoformat now get series hours) = Returned [].
Proof.
  intros fromisoformat now get series hours H. unfold fetch_hourly_markets.
  destruct (fetch_event_data get series true) as [t r]. simpl in H.
  destruct H as [->| ->]; simpl; reflexivity.
Qed.

Lemma fetch_hourly_markets_without_data_witness :
  snd (fetch_hourly_markets parse_iso noon_thirty (NoResponse Timeout)
         "KXBTC" (10 ^ 30)) = Returned [].
Proof.
  apply (fetch_hourly_markets_without_data parse_iso noon_thirty
           (NoResponse Timeout) "KXBTC" (10 ^ 30)).
  left. reflexivity.
Defined.

Lemma fetch_hourly_markets_after_fetch
    (fromisoformat : string -> option datetime) (now : Z)
    (get : http_outcome) (series : string) (hours : Z) (data : option dict) :
  snd (fetch_event_data get series true) = Returned data ->
  snd (fetch_hourly_markets fromisoformat now get series hours)
  = snd (hourly_of fromisoformat now data series hours).
Proof.
  unfold fetch_hourly_markets.
  destruct (fetch_event_data get series true) as [t r]; simpl. intros ->.
  simpl. destruct (hourly_of fromisoformat now data series hours). reflexivity.
Qed.

Lemma add_hours_in_range (now hours : Z) :
  min_instant <= now + hours * 3600000000 <= max_instant ->
  add_hours now hours = Returned (now + hours * 3600000000).
Proof.
  intros H. unfold add_hours.
  replace ((min_instant <=? now + hours * 3600000000)
           && (now + hours * 3600000000 <=? max_instant)) with true;
    [reflexivity|].
  symmetry. apply andb_true_iff. split; apply Z.leb_le; lia.
Qed.

Lemma keep_hourly_events_well_shaped
    (fromisoformat : string -> option datetime) (now cutoff : Z)
    (events : list json) :
  forallb (fun event =>
             match event with
             | JDict kv =>
                 match dict_get kv "markets" (JList []) with
                 | JList _ => true
                 | _ => false
                 end
             | _ => false
             end) events = true ->
  Forall (fun m => well_shaped fromisoformat m = true)
    (flat_map (fun event =>
                 match event with
                 | JDict kv => items_of (dict_get kv "markets" (JList []))
                 | _ => []
                 end) events) ->
  keep_hourly_events fromisoformat now cutoff events
  = Returned (List.filter (qualifies fromisoformat now cutoff)
                (flat_map (fun event =>
                             match event with
                             | JDict kv =>
                                 items_of (dict_get kv "markets" (JList []))
                             | _ => []
                             end) events)).
Proof.
  induction events as [|ev events IH]; simpl; [reflexivity|].
  rewrite andb_true_iff. intros [Hev Hrest] Hall.
  destruct ev as [| | | | | |kv]; try discriminate. simpl.
  destruct (dict_get kv "markets" (JList [])) as [| | | | |items|];
    try discriminate.
  unfold items_of in *. simpl in *.
  apply Forall_app in Hall as [H1 H2].
  rewrite (keep_hourly_well_shaped _ _ _ _ H1). simpl.
  rewrite (IH Hrest H2). simpl. rewrite List.filter_app. reflexivity.
Qed.

(** X3. On a document laid out as expected (a list under "markets", or
    else event objects under "events", each with a list or nothing under
    "markets") whose records are well shaped, and with the cutoff in the
    range of [datetime], [fetch_hourly_markets] returns, in document
    order, exactly the records that qualify. *)
Theorem fetch_hourly_markets_on_expected_layout :
  forall (fromisoformat : string -> option datetime) (now : Z)
         (get : http_outcome) (series : string) (hours : Z) (data : dict),
    snd (fetch_event_data get series true) = Returned (Some data) ->
    min_instant <= now + hours * 3600000000 <= max_instant ->
    expected_layout data = true ->
    Forall (fun m => well_shaped fromisoformat m = true) (records_of data) ->
    snd (fetch_hourly_markets fromisoformat now get series hours)
    = Returned (List.filter
                  (qualifies fromisoformat now (now + hours * 3600000000))
                  (records_of data)).
Proof.
  intros fromisoformat now get series hours data Hfetch Hrange Hlayout Hall.
  rewrite (fetch_hourly_markets_after_fetch _ _ _ _ _ _ Hfetch).
  unfold hourly_of. destruct data as [|p kv]; [reflexivity|].
  rewrite (add_hours_in_range _ _ Hrange).
  unfold expected_layout, records_of in *.
  destruct (dict_contains "markets" (p :: kv)).
  - destruct (dict_get (p :: kv) "markets" JNull) as [| | | | |items|];
      try discriminate.
    unfold items_of in Hall; simpl in Hall.
    cbn [lift mbind io_bind mret io_ret result_bind py_iter].
    rewrite (keep_hourly_well_shaped _ _ _ _ Hall). reflexivity.
  - destruct (dict_contains "events" (p :: kv)); [|reflexivity].
    destruct (dict_get (p :: kv) "events" JNull) as [| | | | |events|];
      try discriminate.
    unfold items_of at 2; unfold items_of at 2 in Hall. simpl in Hall.
    cbn [lift mbind io_bind mret io_ret result_bind py_iter].
    rewrite (keep_hourly_events_well_shaped _ _ _ _ Hlayout Hall).
    reflexivity.
Qed.

Lemma fetch_hourly_markets_on_expected_layout_witness :
  snd (fetch_hourly_markets parse_iso noon_thirty nested_events "KXBTC" 1)
  = Returned [closes_in_window; closes_at_cutoff].
Proof.
  apply (fetch_hourly_markets_on_expected_layout parse_iso noon_thirty
           nested_events "KXBTC" 1
           [("events",
             JList [JDict [("event_ticker", JStr "KXBTC-25JUN01");
                           ("markets",
                            JList [closes_in_window; finalized_in_window;
                                   closes_now; closes_at_cutoff; closes_later;
                                   no_close_time; unreadable_close_time])]])]).
  - reflexivity.
  - vm_compute. split; discriminate.
  - reflexivity.
  - repeat constructor.
Defined.



(** X5. [is_hourly] raises exactly on the records that are not well
    shaped, and then AttributeError (the record is no dict, its status
    or a truthy close_time is no string) or TypeError (the close_time
    parses to a naive datetime); on every other record it returns. *)
Theorem is_hourly_raises_on_ill_shaped :
  forall (fromisoformat : string -> option datetime) (now cutoff : Z)
         (market : json),
    (well_shaped fromisoformat market = true ->
       exists b, is_hourly fromisoformat now cutoff market = Returned b)
    /\ (well_shaped fromisoformat market = false ->
          is_hourly fromisoformat now cutoff market = Raised AttributeError
          \/ is_hourly fromisoformat now cutoff market = Raised TypeError)
    /\ (is_hourly fromisoformat now cutoff market = Raised TypeError <->
          exists kv s c wall,
            market = JDict kv
            /\ dict_get kv "status" (JStr "") = JStr s
            /\ caseless_eqb s "finalized" = false
            /\ dict_get kv "close_time" JNull = JStr c /\ c <> ""
            /\ fromisoformat (str_replace "Z" "+00:00" c) = Some (Naive wall)).
Proof.
  intros fromisoformat now cutoff market.
  split; [|split].
  - intros H. rewrite (is_hourly_well_shaped _ _ _ _ H). eauto.
  - destruct market as [| | | | |l|kv]; try (intros _; left; reflexivity).
    unfold is_hourly, well_shaped; simpl.
    destruct (dict_get kv "status" (JStr "")) as [| | | |s| |];
      try (intros _; left; reflexivity).
    simpl. rewrite lowered_is_finalized.
    destruct (caseless_eqb s "finalized"); simpl; [discriminate|].
    destruct (dict_get kv "close_time" JNull) as [|b|z|f|c|l|kv']; simpl;
      try discriminate.
    + destruct b; simpl; [intros _; left; reflexivity|discriminate].
    + destruct (z =? 0); simpl; [discriminate|intros _; left; reflexivity].
    + destruct f; simpl; try discriminate; intros _; left; reflexivity.
    + destruct (String.eqb c ""); simpl; [discriminate|].
      destruct (fromisoformat (str_replace "Z" "+00:00" c)) as [[t|t]|];
        simpl; try discriminate. intros _; right; reflexivity.
    + destruct l; simpl; [discriminate|intros _; left; reflexivity].
    + destruct kv'; simpl; [discriminate|intros _; left; reflexivity].
  - split.
    + destruct market as [| | | | |l|kv]; try discriminate.
      unfold is_hourly; simpl.
      destruct (dict_get kv "status" (JStr "")) as [| | | |s| |] eqn:Hs;
        try discriminate.
      simpl. rewrite lowered_is_finalized.
      destruct (caseless_eqb s "finalized") eqn:Hf; simpl; [discriminate|].
      destruct (dict_get kv "close_time" JNull) as [|b|z|f|c|l|kv'] eqn:Hc;
        simpl; try discriminate.
      * destruct b; discriminate.
      * destruct (z =? 0); discriminate.
      * destruct f; discriminate.
      * destruct (String.eqb_spec c ""); simpl; [discriminate|].
        destruct (fromisoformat (str_replace "Z" "+00:00" c)) as [[t|t]|] eqn:Hp;
          simpl; try discriminate.
        intros _. exists kv, s, c, t. repeat split; assumption.
      * destruct l; discriminate.
      * destruct kv'; discriminate.
    + intros (kv & s & c & wall & -> & Hs & Hf & Hc & Hne & Hp).
      exact (is_hourly_naive_close_time _ _ _ _ _ _ _ Hs Hf Hc Hne Hp).
Qed.

(** X6. One record on which [is_hourly] raises, after any number of
    well-shaped ones, makes [fetch_hourly_markets] raise the same
    exception: the records before and after it are lost with it. *)
Theorem one_bad_record_loses_all :
  forall (fromisoformat : string -> option datetime) (now : Z)
         (get : http_outcome) (series : string) (hours : Z) (data : dict)
         (before after : list json) (bad : json) (e : exn),
    snd (fetch_event_data get series true) = Returned (Some data) ->
    lookup_key "markets" data = Some (JList (before ++ bad :: after)) ->
    min_instant <= now + hours * 3600000000 <= max_instant ->
    Forall (fun m => well_shaped fromisoformat m = true) before ->
    is_hourly fromisoformat now (now + hours * 3600000000) bad = Raised e ->
    snd (fetch_hourly_markets fromisoformat now get series hours) = Raised e.
Proof.
  intros fromisoformat now get series hours data before after bad e
         Hfetch Hm Hrange Hbefore Hbad.
  rewrite (fetch_hourly_markets_after_fetch _ _ _ _ _ _ Hfetch).
  unfold hourly_of. destruct data as [|p kv]; [discriminate|].
  rewrite (add_hours_in_range _ _ Hrange).
  unfold dict_contains, dict_get. rewrite Hm.
  cbn [lift mbind io_bind mret io_ret result_bind py_iter].
  rewrite (keep_hourly_raises _ _ _ _ _ _ _ Hbefore Hbad). reflexivity.
Qed.

Lemma one_bad_record_loses_all_witness :
  snd (fetch_hourly_markets parse_iso noon_thirty
         (answer (JDict [("markets",
                          JList [closes_in_window; naive_close_time;
                                 closes_at_cutoff])]))
         "KXBTC" 1) = Raised TypeError.
Proof.
  apply (one_bad_record_loses_all parse_iso noon_thirty
           (answer (JDict [("markets",
                            JList [closes_in_window; naive_close_time;
                                   closes_at_cutoff])]))
           "KXBTC" 1
           [("markets",
             JList [closes_in_window; naive_close_time; closes_at_cutoff])]
           [closes_in_window] [closes_at_cutoff] naive_close_time TypeError).
  - reflexivity.
  - reflexivity.
  - vm_compute. split; discriminate.
  - repeat constructor.
  - reflexivity.
Defined.

(** ** [place_trade] once a response exists *)

(** X7. When the POST is answered, [place_trade] raises nothing and
    sends exactly one request, whose body carries the nine arguments. It
    returns the confirmation document if the status is good and the body
    is JSON, and None otherwise, after logging the response text. *)
Theorem place_trade_answered :
  forall (post : order -> http_outcome) (r : response)
         (action side ticker : string) (count : Z) (order_type : string)
         (yes_price no_price floor : Z) (id : string),
    let payload := Order action id count floor side ticker order_type
                         yes_price no_price in
    let call := place_trade post action side ticker count order_type
                            yes_price no_price floor id in
    post payload = Answered r ->
    posts (fst call) = [payload]
    /\ snd call = Returned (if status_error r then None
                            else match body r with
                                 | Returned doc => Some doc
                                 | Raised _ => None
                                 end)
    /\ (snd call = Returned None ->
        In (EvLog ERROR (MsgResponseText (text r))) (fst call)).
Proof.
  intros post r action side ticker count order_type yes_price no_price floor id
         payload call H.
  subst call payload. unfold place_trade. rewrite H.
  destruct r as [bad [doc|e] txt]; destruct bad; simpl;
    (split; [reflexivity|split; [reflexivity|]]); intros Hn;
    try discriminate; auto 6.
Qed.

Lemma place_trade_answered_witness :
  let payload := Order "buy" "order_KXBTC_A" 10 0 "yes" "KXBTC-A" "Market" 35 0 in
  let call := place_trade (confirms 0) "buy" "yes" "KXBTC-A" 10 "Market"
                          35 0 0 "order_KXBTC_A" in
  posts (fst call) = [payload]
  /\ snd call = Returned (Some (JDict [("order", JDict [("status", JStr "resting")])]))
  /\ (snd call = Returned None ->
      In (EvLog ERROR (MsgResponseText "")) (fst call)).
Proof.
  apply (place_trade_answered (confirms 0)
           {| status_error := false;
              body := Returned (JDict [("order", JDict [("status", JStr "resting")])]);
              text := "" |}
           "buy" "yes" "KXBTC-A" 10 "Market" 35 0 0 "order_KXBTC_A").
  reflexivity.
Defined.

(** ** [should_enter_trade] *)

Lemma num_le_refl (a : number) : not_nan a = true -> num_le a a = true.
Proof.
  destruct a as [z|f]; simpl; intros H.
  - unfold num_le; simpl. now rewrite Z.compare_refl.
  - apply negb_true_iff in H. exact (SFleb_refl f H).
Qed.

Lemma num_lt_not_le (a b : number) : num_lt a b = true -> num_le b a = false.
Proof.
  unfold num_lt, num_le. rewrite (num_compare_antisym a b).
  destruct (num_compare a b) as [[]|]; simpl; congruence.
Qed.

(** X8. For a bot whose entry range is not empty, both ends of the
    range enter; a price strictly below the low end, strictly above the
    high end, or NaN never enters. *)
Theorem should_enter_trade_range :
  forall (self : KalshiBot),
    num_le (entry_price_low self) (entry_price_high self) = true ->
    should_enter_trade self (entry_price_low self) = true
    /\ should_enter_trade self (entry_price_high self) = true
    /\ forall p,
         (num_lt p (entry_price_low self) = true ->
            should_enter_trade self p = false)
         /\ (num_lt (entry_price_high self) p = true ->
            should_enter_trade self p = false)
         /\ (not_nan p = false -> should_enter_trade self p = false).
Proof.
  intros self H. unfold should_enter_trade.
  destruct (num_le_defined _ _ H) as [c Hc].
  destruct (num_compare_not_nan _ _ _ Hc) as [Hl Hh].
  rewrite H, (num_le_refl _ Hl), (num_le_refl _ Hh).
  split; [reflexivity|]. split; [reflexivity|].
  intros p. split; [|split].
  - intros Hp. now rewrite (num_lt_not_le _ _ Hp).
  - intros Hp. rewrite (num_lt_not_le _ _ Hp). apply andb_false_r.
  - intros Hp.
    destruct (num_le (entry_price_low self) p) eqn:Hle; [|reflexivity].
    apply num_le_defined in Hle as [c' Hc'].
    apply num_compare_not_nan in Hc' as [_ Hc']. congruence.
Qed.

Lemma should_enter_trade_range_witness :
  should_enter_trade default_bot (NFloat (lit 0.30)) = true
  /\ should_enter_trade default_bot (NFloat (lit 0.80)) = true
  /\ forall p,
       (num_lt p (NFloat (lit 0.30)) = true ->
          should_enter_trade default_bot p = false)
       /\ (num_lt (NFloat (lit 0.80)) p = true ->
          should_enter_trade default_bot p = false)
       /\ (not_nan p = false -> should_enter_trade default_bot p = false).
Proof.
  apply (should_enter_trade_range default_bot). vm_compute. reflexivity.
Defined.

(** ** One iteration of the trading loop *)

(** What [place_trade] hands to the loop, by the answer it got. *)
Lemma place_trade_value (post : order -> http_outcome)
    (action side ticker : string) (count : Z) (order_type : string)
    (yes_price no_price floor : Z) (id : string) :
  let payload := Order action id count floor side ticker order_type
                       yes_price no_price in
  snd (place_trade post action side ticker count order_type
                   yes_price no_price floor id)
  = match post payload with
    | NoResponse _ => Raised UnboundLocalError
    | Answered r =>
        Returned (if status_error r then None
                  else match body r with
                       | Returned doc => Some doc
                       | Raised _ => None
                       end)
    end.
Proof.
  simpl. unfold place_trade.
  destruct (post _) as [e|[bad [doc|e] txt]]; [reflexivity|..];
    destruct bad; reflexivity.
Qed.

(** The iteration for a market that has a ticker and a chosen side, from
    the "Placing order" line on. *)
Lemma trade_market_tradeable (bot : KalshiBot)
    (post : nat -> order -> http_outcome) (kv : dict)
    (st : session_state) (sent : nat)
    (name side : string) (chosen : json) (p : number) (cents : Z) :
  dict_get kv "ticker" JNull = JStr name -> name <> "" ->
  choose_side bot (dict_get kv "yes_bid" JNull) (dict_get kv "no_bid" JNull)
    = Returned (Some (side, chosen)) ->
  as_number chosen = Some p ->
  price_in_cents p = Returned cents ->
  trade_market bot post (JDict kv) st sent
  = (st_write (PlacingOrder (JStr name) side p);;
     order_response ←
       (let order_id := String.append "order_" (str_replace "-" "_" name) in
        if String.eqb side "yes"
        then place_trade (post sent) "buy" "yes" name (trade_size bot)
               "Market" cents 0 0 order_id
        else place_trade (post sent) "buy" "no" name (trade_size bot)
               "Market" 0 cents 0 order_id);
     match order_response with
     | Some doc =>
         if truthy doc then
           st_write (OrderPlacedOk doc);;
           mret {| candles := candles st;
                   positions :=
                     <[name := {| pos_side := side; entry_price := p;
                                  quantity := trade_size bot |}]>
                       (positions st);
                   cumulative_pnl := cumulative_pnl st |}
         else st_write (OrderFailed (JStr name));; mret st
     | None => st_write (OrderFailed (JStr name));; mret st
     end).
Proof.
  intros Ht Hne Hc Hp Hcents. unfold trade_market.
  cbn [py_get lift mbind io_bind mret io_ret app].
  rewrite Ht, (choose_side_some_present _ _ _ _ Hc), Hc.
  assert (Htr : truthy (JStr name) = true).
  { simpl. destruct (String.eqb_spec name ""); [contradiction|reflexivity]. }
  rewrite Htr.
  cbn [negb orb lift mbind io_bind mret io_ret app st_write emit raise].
  rewrite Hp. io_step. rewrite Hcents. io_step.
  destruct (_ ≫= _) as [t' r]. reflexivity.
Qed.

(** X9. For a market with a ticker and a chosen side the iteration
    sends exactly one order: a "Market" buy of trade_size contracts on
    that side, priced in cents on that side and 0 on the other, named
    "order_" plus the ticker with "-" replaced by "_". A confirming
    answer records the position (side, entry price, trade_size) under
    the ticker; any other answer leaves the session as it was; no
    answer at all lets UnboundLocalError out of the iteration. *)
Theorem tradeable_market_iteration :
  forall (bot : KalshiBot) (post : nat -> order -> http_outcome) (kv : dict)
         (st : session_state) (sent : nat)
         (name side : string) (chosen : json) (p : number) (cents : Z),
    dict_get kv "ticker" JNull = JStr name -> name <> "" ->
    choose_side bot (dict_get kv "yes_bid" JNull) (dict_get kv "no_bid" JNull)
      = Returned (Some (side, chosen)) ->
    as_number chosen = Some p ->
    price_in_cents p = Returned cents ->
    posts (fst (trade_market bot post (JDict kv) st sent))
      = [order_for bot name side cents]
    /\ snd (trade_market bot post (JDict kv) st sent)
       = match post sent (order_for bot name side cents) with
         | NoResponse _ => Raised UnboundLocalError
         | Answered _ =>
             Returned
               (if confirming (post sent (order_for bot name side cents))
                then {| candles := candles st;
                        positions :=
                          <[name := {| pos_side := side; entry_price := p;
                                       quantity := trade_size bot |}]>
                            (positions st);
                        cumulative_pnl := cumulative_pnl st |}
                else st)
         end.
Proof.
  intros bot post kv st sent name side chosen p cents Ht Hne Hc Hp Hcents.
  rewrite (trade_market_tradeable _ _ _ _ _ _ _ _ _ _ Ht Hne Hc Hp Hcents).
  unfold order_for, confirming.
  destruct (String.eqb side "yes");
    match goal with
    | |- context [place_trade ?a ?b ?c ?d ?f ?g ?h ?i ?j ?k] =>
        pose proof (place_trade_posts a b c d f g h i j k) as Hposts;
        pose proof (place_trade_value a b c d f g h i j k) as Hval;
        destruct (place_trade a b c d f g h i j k) as [t1 v]
    end; simpl in Hposts, Hval; subst v;
    match goal with
    | |- context [post sent ?o] =>
        destruct (post sent o) as [err|[bad [doc|err] txt]]
    end; try destruct bad; io_step;
    cbn [fst snd negb andb status_error body]; io_step;
    try match goal with
        | |- context [truthy ?d] => destruct (truthy d)
        end;
    io_step; cbn [fst snd posts negb andb status_error body];
    rewrite ?posts_app, ?Hposts; split; reflexivity.
Qed.

Lemma tradeable_market_iteration_witness :
  let st' := {| candles := [];
                positions :=
                  <["KXBTC-A" := {| pos_side := "yes";
                                    entry_price := NFloat (lit 0.35);
                                    quantity := 10 |}]> ∅;
                cumulative_pnl := lit 0.0 |} in
  let market := [("ticker", JStr "KXBTC-A"); ("yes_bid", JFloat (lit 0.35));
                 ("no_bid", JNull)] in
  posts (fst (trade_market default_bot confirms (JDict market) initial_state 0))
    = [order_for default_bot "KXBTC-A" "yes" 35]
  /\ snd (trade_market default_bot confirms (JDict market) initial_state 0)
     = match confirms 0%nat (order_for default_bot "KXBTC-A" "yes" 35) with
       | NoResponse _ => Raised UnboundLocalError
       | Answered _ =>
           Returned
             (if confirming (confirms 0%nat
                               (order_for default_bot "KXBTC-A" "yes" 35))
              then st' else initial_state)
       end.
Proof.
  apply (tradeable_market_iteration default_bot confirms
           [("ticker", JStr "KXBTC-A"); ("yes_bid", JFloat (lit 0.35));
            ("no_bid", JNull)]
           initial_state 0 "KXBTC-A" "yes" (JFloat (lit 0.35))
           (NFloat (lit 0.35)) 35).
  - reflexivity.
  - discriminate.
  - vm_compute. reflexivity.
  - reflexivity.
  - vm_compute. reflexivity.
Defined.

(** ** The whole loop *)



(** What a completed iteration wrote, if anything: a position of
    trade_size contracts under the ticker of its market. *)
Lemma trade_market_position (bot : KalshiBot)
    (post : nat -> order -> http_outcome) (market : json)
    (st st' : session_state) (sent : nat) (t : list event) :
  trade_market bot post market st sent = (t, Returned st') ->
  st' = st
  \/ exists name side p,
       py_get market "ticker" JNull = Returned (JStr name)
       /\ st' = {| candles := candles st;
                   positions :=
                     <[name := {| pos_side := side; entry_price := p;
                                  quantity := trade_size bot |}]>
                       (positions st);
                   cumulative_pnl := cumulative_pnl st |}.
Proof.
  unfold trade_market.
  destruct market as [| | | | | |kv]; try discriminate.
  cbn [py_get lift mbind io_bind mret io_ret app].
  destruct (negb _ || _).
  { intros H; inversion H; now left. }
  destruct (choose_side bot _ _) as [[[side chosen]|]|e]; io_step;
    [| intros H; inversion H; now left | discriminate].
  destruct (as_number chosen) as [p|]; io_step; [|discriminate].
  destruct (price_in_cents p) as [cents|e]; io_step; [|discriminate].
  destruct (dict_get kv "ticker" JNull) as [| | | |name| |]; io_step;
    try discriminate.
  match goal with
  | |- context [if String.eqb side "yes" then ?a else ?b] =>
      destruct (if String.eqb side "yes" then a else b) as [t1 [[doc|]|e]]
  end; io_step;
    [| intros H; inversion H; now left | discriminate].
  destruct (truthy doc); io_step; intros H; inversion H;
    [right; eauto 6 | now left].
Qed.

(** X11. A cycle never removes a position. Every position found after
    it was there before, unchanged, or is a position of trade_size
    contracts under the ticker of one of the markets of the list. *)
Theorem positions_only_grow :
  forall (bot : KalshiBot) (post : nat -> order -> http_outcome)
         (markets : list json) (st : session_state) (k : string),
    let after := positions (fst (auto_trade_logic bot post markets st)) in
    (is_Some (positions st !! k) -> is_Some (after !! k))
    /\ (forall pos, after !! k = Some pos ->
          positions st !! k = Some pos
          \/ (quantity pos = trade_size bot
              /\ exists m, In m markets
                           /\ py_get m "ticker" JNull = Returned (JStr k))).
Proof.
  intros bot post markets st k. unfold auto_trade_logic.
  destruct (num_ge _ _); [cbn; split; auto|].
  destruct (num_le _ _); [cbn; split; auto|].
  generalize 0%nat as sent. revert st.
  induction markets as [|m markets IH]; intros st sent; [cbn; split; auto|].
  cbn [trade_loop].
  destruct (trade_market bot post m st sent) as [t [st'|e]] eqn:Hm;
    [|cbn; split; auto].
  specialize (IH st' (sent + List.length (posts t))%nat).
  destruct (trade_loop bot post markets st' _) as [st'' [t' r]].
  cbn [fst snd] in *. destruct IH as [IH1 IH2].
  apply trade_market_position in Hm as [->|(name & side & p & Hname & ->)].
  - split; [exact IH1|]. intros pos Hpos.
    destruct (IH2 pos Hpos) as [H|(Hq & m' & Hin & Hm')]; [now left|].
    right. split; [exact Hq|]. exists m'. split; [now right|exact Hm'].
  - cbn [positions] in *. split.
    + intros Hk. apply IH1. apply lookup_insert_is_Some.
      destruct (decide (name = k)); [now left|now right].
    + intros pos Hpos.
      destruct (IH2 pos Hpos) as [H|(Hq & m' & Hin & Hm')].
      * apply lookup_insert_Some in H as [[-> <-]|[_ H]]; [|now left].
        right. split; [reflexivity|]. exists m. split; [now left|exact Hname].
      * right. split; [exact Hq|]. exists m'. split; [now right|exact Hm'].
Qed.

Lemma trade_market_unconfirmed (bot : KalshiBot)
    (post : nat -> order -> http_outcome) (market : json)
    (st st' : session_state) (sent : nat) (t : list event) :
  (forall o, confirming (post sent o) = false) ->
  trade_market bot post market st sent = (t, Returned st') ->
  st' = st.
Proof.
  intros Hpost. unfold trade_market.
  destruct market as [| | | | | |kv]; try discriminate.
  cbn [py_get lift mbind io_bind mret io_ret app].
  destruct (negb _ || _).
  { intros H; now inversion H. }
  destruct (choose_side bot _ _) as [[[side chosen]|]|e]; io_step;
    [| intros H; now inversion H | discriminate].
  destruct (as_number chosen) as [p|]; io_step; [|discriminate].
  destruct (price_in_cents p) as [cents|e]; io_step; [|discriminate].
  destruct (dict_get kv "ticker" JNull) as [| | | |name| |]; io_step;
    try discriminate.
  destruct (String.eqb side "yes");
    match goal with
    | |- context [place_trade ?a ?b ?c ?d ?f ?g ?h ?i ?j ?k] =>
        pose proof (place_trade_value a b c d f g h i j k) as Hval;
        destruct (place_trade a b c d f g h i j k) as [t1 v]
    end; cbn [snd] in Hval; subst v;
    match goal with
    | |- context [post sent ?o] =>
        pose proof (Hpost o) as Hno;
        destruct (post sent o) as [err|[bad [doc|err] txt]]
    end; io_step; try discriminate;
    destruct bad; cbn [confirming negb andb status_error body] in Hno;
    cbn [status_error body]; io_step; rewrite ?Hno; io_step;
    intros H; now inversion H.
Qed.

(** X12. A position is recorded only for a confirmed order: if no
    answer of the order endpoint has a good status and a truthy JSON
    document (an empty object does not count), the cycle leaves the
    session state exactly as it was. *)
Theorem no_confirmation_no_position :
  forall (bot : KalshiBot) (post : nat -> order -> http_outcome)
         (markets : list json) (st : session_state),
    (forall n o, confirming (post n o) = false) ->
    fst (auto_trade_logic bot post markets st) = st.
Proof.
  intros bot post markets st Hpost. unfold auto_trade_logic.
  destruct (num_ge _ _); [reflexivity|].
  destruct (num_le _ _); [reflexivity|].
  generalize 0%nat as sent. revert st.
  induction markets as [|m markets IH]; intros st sent; [reflexivity|].
  cbn [trade_loop].
  destruct (trade_market bot post m st sent) as [t [st'|e]] eqn:Hm;
    [|reflexivity].
  apply (trade_market_unconfirmed _ _ _ _ _ _ _ (Hpost sent)) in Hm. subst st'.
  specialize (IH st (sent + List.length (posts t))%nat).
  destruct (trade_loop bot post markets st _) as [st'' [t' r]]. exact IH.
Qed.

Lemma no_confirmation_no_position_witness :
  fst (auto_trade_logic default_bot (fun _ _ => answer (JDict []))
         [quoted "KXBTC-A" (JFloat (lit 0.35)) JNull] initial_state)
  = initial_state.
Proof.
  apply (no_confirmation_no_position default_bot
           (fun _ _ => answer (JDict []))
           [quoted "KXBTC-A" (JFloat (lit 0.35)) JNull] initial_state).
  intros n o. reflexivity.
Defined.

(** X13. A bid that is present but is no number (a string such as
    "0.40", a list, an object) makes the iteration of a market that has
    a ticker raise TypeError before anything is written or sent. *)
Theorem non_numeric_bid_raises :
  forall (bot : KalshiBot) (post : nat -> order -> http_outcome) (kv : dict)
         (st : session_state) (sent : nat),
    truthy (dict_get kv "ticker" JNull) = true ->
    not_a_price (dict_get kv "yes_bid" JNull) = true
    \/ not_a_price (dict_get kv "no_bid" JNull) = true ->
    trade_market bot post (JDict kv) st sent = ([], Raised TypeError).
Proof.
  intros bot post kv st sent Ht H. unfold trade_market.
  cbn [py_get lift mbind io_bind mret io_ret app]. rewrite Ht.
  unfold not_a_price, choose_side, enters in *.
  destruct (is_None (dict_get kv "yes_bid" JNull)),
           (as_number (dict_get kv "yes_bid" JNull)) as [y|],
           (is_None (dict_get kv "no_bid" JNull)),
           (as_number (dict_get kv "no_bid" JNull)) as [n|];
    cbn [negb andb orb] in *; try (destruct H; discriminate);
    try reflexivity;
    destruct (should_enter_trade bot y); reflexivity.
Qed.

Lemma non_numeric_bid_raises_witness :
  trade_market default_bot confirms
    (JDict [("ticker", JStr "KXBTC-A"); ("yes_bid", JStr "0.40");
            ("no_bid", JFloat (lit 0.40))]) initial_state 0
  = ([], Raised TypeError).
Proof.
  apply (non_numeric_bid_raises default_bot confirms
           [("ticker", JStr "KXBTC-A"); ("yes_bid", JStr "0.40");
            ("no_bid", JFloat (lit 0.40))] initial_state 0).
  - reflexivity.
  - left. reflexivity.
Defined.

(** X14. When the order endpoint does not answer the first market that
    is traded, the cycle ends there: the order was sent, the error was
    logged, UnboundLocalError leaves [auto_trade_logic], no position is
    recorded and the remaining markets are not looked at. *)
Theorem unanswered_order_ends_cycle :
  forall (bot : KalshiBot) (post : nat -> order -> http_outcome) (kv : dict)
         (rest : list json) (st : session_state)
         (name side : string) (chosen : json) (p : number) (cents : Z)
         (e : exn),
    num_ge (NFloat (cumulative_pnl st)) (profit_goal bot) = false ->
    num_le (NFloat (cumulative_pnl st)) (num_neg (max_drawdown bot)) = false ->
    dict_get kv "ticker" JNull = JStr name -> name <> "" ->
    choose_side bot (dict_get kv "yes_bid" JNull) (dict_get kv "no_bid" JNull)
      = Returned (Some (side, chosen)) ->
    as_number chosen = Some p ->
    price_in_cents p = Returned cents ->
    post 0%nat (order_for bot name side cents) = NoResponse e ->
    auto_trade_logic bot post (JDict kv :: rest) st
    = (st, ([EvWrite (PlacingOrder (JStr name) side p);
             EvPost (order_for bot name side cents);
             EvLog ERROR (MsgOrderError name e)],
            Raised UnboundLocalError)).
Proof.
  intros bot post kv rest st name side chosen p cents e
         Hg Hd Ht Hne Hc Hp Hcents Hpost.
  unfold auto_trade_logic. rewrite Hg, Hd. cbn [trade_loop].
  rewrite (trade_market_tradeable _ _ _ _ _ _ _ _ _ _ Ht Hne Hc Hp Hcents).
  unfold order_for in *. unfold place_trade.
  destruct (String.eqb side "yes"); rewrite Hpost; reflexivity.
Qed.

Lemma unanswered_order_ends_cycle_witness :
  auto_trade_logic default_bot unreachable
    [quoted "KXBTC-A" (JFloat (lit 0.35)) JNull;
     quoted "KXBTC-B" JNull (JFloat (lit 0.40))] initial_state
  = (initial_state,
     ([EvWrite (PlacingOrder (JStr "KXBTC-A") "yes" (NFloat (lit 0.35)));
       EvPost (order_for default_bot "KXBTC-A" "yes" 35);
       EvLog ERROR (MsgOrderError "KXBTC-A" ConnectionError)],
      Raised UnboundLocalError)).
Proof.
  apply (unanswered_order_ends_cycle default_bot unreachable
           [("ticker", JStr "KXBTC-A"); ("yes_bid", JFloat (lit 0.35));
            ("no_bid", JNull)]
           [quoted "KXBTC-B" JNull (JFloat (lit 0.40))] initial_state
           "KXBTC-A" "yes" (JFloat (lit 0.35)) (NFloat (lit 0.35)) 35
           ConnectionError).
  - vm_compute. reflexivity.
  - vm_compute. reflexivity.
  - reflexivity.
  - discriminate.
  - vm_compute. reflexivity.
  - reflexivity.
  - vm_compute. reflexivity.
  - reflexivity.
Defined.

(** ** Candles, further *)

(** X15. An update with a price never shortens the candle sequence and
    adds at most one candle; every candle but the last stays as it was;
    and the close of the last candle is the price just fed. *)
Theorem update_candles_keeps_history :
  forall (now : Z) (p : float) (interval : Z) (st : session_state),
    let before := candles st in
    let after := candles (update_candles now (Some p) interval st) in
    (List.length before <= List.length after <= List.length before + 1)%nat
    /\ (exists tail, after = removelast before ++ tail)
    /\ option_map close (last after) = Some p.
Proof.
  intros now p interval st before after. subst before after.
  unfold update_candles; simpl.
  destruct (last (candles st)) as [last_row|] eqn:Hlast.
  - apply last_Some in Hlast as [init ->].
    rewrite removelast_last.
    destruct (Qltb _ _).
    + rewrite !List.length_app. cbn [List.length].
      split; [lia|]. split; [eauto|]. now rewrite last_snoc.
    + rewrite !List.length_app. cbn [List.length].
      split; [lia|]. split; [exists [last_row; new_row now p];
                             now rewrite <- app_assoc|].
      now rewrite last_snoc.
  - apply last_None in Hlast. rewrite Hlast. cbn.
    split; [lia|]. split; [eauto|reflexivity].
Qed.

Lemma Qltb_false_minutes (now t interval : Z) :
  Qltb (minutes_between now t) (inject_Z interval) = false ->
  interval * 60000000 <= now - t.
Proof.
  unfold Qltb, minutes_between, Qcompare, inject_Z. cbn [Qnum Qden].
  destruct (Z.compare_spec ((now - t) * 1) (interval * 60000000));
    [lia | discriminate | lia].
Qed.

Lemma spaced_snoc (interval : Z) (init : list candle) (c c' : candle) :
  spaced interval (init ++ [c]) ->
  interval * 60000000 <= time c' - time c ->
  spaced interval ((init ++ [c]) ++ [c']).
Proof.
  induction init as [|x init IH]; cbn; intros H Hle.
  - repeat split; assumption.
  - destruct H as [Hx Hrest]. split; [|exact (IH Hrest Hle)].
    destruct init; exact Hx.
Qed.

Lemma spaced_same_time (interval : Z) (init : list candle) (c c' : candle) :
  time c' = time c ->
  spaced interval (init ++ [c]) -> spaced interval (init ++ [c']).
Proof.
  intros Ht. induction init as [|x init IH]; cbn; intros H.
  - split; exact I.
  - destruct H as [Hx Hrest]. split; [|exact (IH Hrest)].
    destruct init as [|y init]; cbn in *; [rewrite Ht|]; exact Hx.
Qed.

Lemma update_candles_spaced (now : Z) (price : option float)
    (interval : Z) (st : session_state) :
  spaced interval (candles st) ->
  spaced interval (candles (update_candles now price interval st)).
Proof.
  destruct price as [p|]; [|intros H; exact H].
  intros H. unfold update_candles; simpl.
  destruct (last (candles st)) as [last_row|] eqn:Hlast.
  - apply last_Some in Hlast as [init Hinit]. rewrite Hinit in *.
    destruct (Qltb _ _) eqn:Hq.
    + rewrite removelast_last.
      now apply (spaced_same_time interval init last_row).
    + apply spaced_snoc; [exact H|].
      now apply Qltb_false_minutes.
  - cbn. split; exact I.
Qed.

(** X16. With one bucket size throughout, consecutive candles start at
    least that many minutes apart, whatever the clock readings are: a
    candle is only opened once the last one is a full bucket old. *)
Theorem candles_stay_spaced :
  forall (interval : Z) (samples : list sample) (st : session_state),
    Forall (fun s => bucket s = interval) samples ->
    spaced interval (candles st) ->
    spaced interval (candles (feed samples st)).
Proof.
  intros interval samples. induction samples as [|s samples IH];
    intros st Hs Hst; [exact Hst|].
  inversion Hs as [|? ? Hb Hrest]; subst.
  unfold feed; simpl. apply IH; [exact Hrest|].
  now apply update_candles_spaced.
Qed.

Lemma candles_stay_spaced_witness :
  spaced 5
    (candles (feed [Sample 0 (Some (lit 10)) 5;
                    Sample 299999999 (Some (lit 12)) 5;
                    Sample 300000000 (Some (lit 8)) 5;
                    Sample 100000000 (Some (lit 9)) 5;
                    Sample 700000000 (Some (lit 11)) 5] initial_state)).
Proof.
  apply (candles_stay_spaced 5
           [Sample 0 (Some (lit 10)) 5;
            Sample 299999999 (Some (lit 12)) 5;
            Sample 300000000 (Some (lit 8)) 5;
            Sample 100000000 (Some (lit 9)) 5;
            Sample 700000000 (Some (lit 11)) 5] initial_state).
  - repeat constructor.
  - exact I.
Defined.

(** ** [fetch_current_price] *)

(** X17. [fetch_current_price] yields a price other than None exactly
    when the quote endpoint answered with a good status and a JSON
    object that holds, under the symbol, an object with that price under
    "usd". No response, a bad status, a body that is not JSON, a missing
    symbol or a missing "usd" all give None, never an exception. *)
Theorem fetch_current_price_value :
  forall (get : http_outcome) (symbol : string) (price : json),
    price <> JNull ->
    (fetch_current_price get symbol = price
     <-> exists r kv quote,
           get = Answered r /\ status_error r = false
           /\ body r = Returned (JDict kv)
           /\ dict_get kv symbol (JDict []) = JDict quote
           /\ lookup_key "usd" quote = Some price).
Proof.
  intros get symbol price Hp. unfold fetch_current_price. split.
  - destruct get as [e|[bad [doc|e] txt]]; simpl;
      try (intros H; now destruct Hp).
    + destruct bad; simpl; try (intros H; now destruct Hp).
      destruct doc as [| | | | | |kv]; simpl; try (intros H; now destruct Hp).
      destruct (dict_get kv symbol (JDict [])) as [| | | | | |quote] eqn:Hq;
        simpl; try (intros H; now destruct Hp).
      unfold dict_get. destruct (lookup_key "usd" quote) as [v|] eqn:Hu;
        [|intros H; now destruct Hp].
      intros <-. exists (Response false (Returned (JDict kv)) txt), kv, quote.
      repeat split; assumption.
    + destruct bad; simpl; intros H; now destruct Hp.
  - intros (r & kv & quote & -> & Hs & Hb & Hq & Hu).
    destruct r as [bad b txt]; simpl in *. subst bad b. simpl.
    rewrite Hq. simpl. unfold dict_get. now rewrite Hu.
Qed.

Lemma fetch_current_price_value_witness :
  fetch_current_price
    (answer (JDict [("ethereum", JDict [("usd", JFloat (lit 2612.45))])]))
    "ethereum" = JFloat (lit 2612.45)
  <-> exists r kv quote,
        answer (JDict [("ethereum", JDict [("usd", JFloat (lit 2612.45))])])
          = Answered r
        /\ status_error r = false
        /\ body r = Returned (JDict kv)
        /\ dict_get kv "ethereum" (JDict []) = JDict quote
        /\ lookup_key "usd" quote = Some (JFloat (lit 2612.45)).
Proof.
  apply (fetch_current_price_value
           (answer (JDict [("ethereum", JDict [("usd", JFloat (lit 2612.45))])]))
           "ethereum" (JFloat (lit 2612.45))).
  discriminate.
Defined.

Example fetch_current_price_failures :
  fetch_current_price (NoResponse Timeout) "ethereum" = JNull
  /\ fetch_current_price (answer (JDict [])) "ethereum" = JNull
  /\ fetch_current_price (answer (JList [])) "ethereum" = JNull
  /\ fetch_current_price (answer (JDict [("ethereum", JFloat (lit 2612.45))]))
       "ethereum" = JNull.
Proof. repeat split; reflexivity. Qed.

(** ** [get_hourly_markets] *)

Lemma gather_hourly_returns (fromisoformat : string -> option datetime)
    (now : string -> Z) (get : string -> http_outcome)
    (found : string -> list json) (series : list string) (acc : list json) :
  (forall s, In s series ->
     snd (fetch_hourly_markets fromisoformat (now s) (get s) s 1)
     = Returned (found s)) ->
  snd (gather_hourly fromisoformat now get series acc)
  = Returned (acc ++ concat (map found series)).
Proof.
  revert acc. induction series as [|s series IH]; intros acc H; cbn.
  - now rewrite app_nil_r.
  - pose proof (H s (or_introl eq_refl)) as Hs.
    destruct (fetch_hourly_markets fromisoformat (now s) (get s) s 1)
      as [t r]. cbn in Hs. subst r. io_step.
    match goal with
    | |- context [gather_hourly _ _ _ series ?a] =>
        specialize (IH a (fun s' Hin => H s' (or_intror Hin)));
        destruct (gather_hourly fromisoformat now get series a) as [t' r']
    end.
    cbn in *. rewrite IH.
    destruct (found s); [reflexivity|]. now rewrite <- app_assoc.
Qed.

(** X18. When the fetch of each of the four series returns,
    [get_hourly_markets] returns their markets concatenated in the order
    KXETHD, KXETH, KXBTCD, KXBTC; a series that found nothing (or whose
    fetch failed softly) contributes nothing. *)
Theorem get_hourly_markets_concatenates :
  forall (fromisoformat : string -> option datetime)
         (now : string -> Z) (get : string -> http_outcome)
         (found : string -> list json),
    (forall s, In s SERIES_LIST ->
       snd (fetch_hourly_markets fromisoformat (now s) (get s) s 1)
       = Returned (found s)) ->
    snd (get_hourly_markets fromisoformat now get)
    = Returned (found "KXETHD" ++ found "KXETH" ++ found "KXBTCD"
                ++ found "KXBTC").
Proof.
  intros fromisoformat now get found H. unfold get_hourly_markets.
  rewrite (gather_hourly_returns _ _ _ found SERIES_LIST [] H).
  cbn. now rewrite app_nil_r.
Qed.

Lemma get_hourly_markets_concatenates_witness :
  snd (get_hourly_markets parse_iso (fun _ => noon_thirty) four_series)
  = Returned (found_that_day "KXETHD" ++ found_that_day "KXETH"
              ++ found_that_day "KXBTCD" ++ found_that_day "KXBTC").
Proof.
  apply (get_hourly_markets_concatenates parse_iso (fun _ => noon_thirty)
           four_series found_that_day).
  intros s [<-|[<-|[<-|[<-|[]]]]]; reflexivity.
Defined.

(** A series whose fetch raises takes the markets of the others with it. *)
Example get_hourly_markets_raises :
  snd (get_hourly_markets parse_iso (fun _ => noon_thirty)
         (fun s => if String.eqb s "KXBTCD" then epoch_close_time
                   else four_series s))
  = Raised AttributeError.
Proof. reflexivity. Qed.

(** ** One run of the script *)

Lemma auto_trade_logic_candles (bot : KalshiBot)
    (post : nat -> order -> http_outcome) (markets : list json)
    (st : session_state) :
  candles (fst (auto_trade_logic bot post markets st)) = candles st.
Proof.
  unfold auto_trade_logic.
  destruct (num_ge _ _); [reflexivity|].
  destruct (num_le _ _); [reflexivity|].
  apply trade_loop_pnl.
Qed.

Lemma run_script_candles (i : run_inputs) (st : session_state) :
  candles (fst (run_script i st))
  = candles (update_candles (clock i) (price_sample i) (chart_interval i) st).
Proof.
  unfold run_script.
  destruct (auto_trading i); [apply auto_trade_logic_candles|reflexivity].
Qed.

(** X19. The candles a run leaves are those of its one candle update:
    the trading loop never touches them. With auto-trading off a run
    sends no order, leaves the positions alone and ends normally. *)
Theorem run_script_frame :
  forall (i : run_inputs) (st : session_state),
    candles (fst (run_script i st))
    = candles (update_candles (clock i) (price_sample i) (chart_interval i) st)
    /\ (auto_trading i = false ->
          posts (fst (snd (run_script i st))) = []
          /\ positions (fst (run_script i st)) = positions st
          /\ snd (snd (run_script i st)) = Returned tt).
Proof.
  intros i st. split; [apply run_script_candles|].
  unfold run_script. intros ->. cbn.
  destruct (price_sample i); repeat split; reflexivity.
Qed.

(** X20. Over any sequence of runs of the script, trading or not,
    ending normally or not, the candles keep high >= max(open, close)
    and low <= min(open, close), as long as the fetched prices are
    numbers. *)
Theorem candles_well_formed_across_runs :
  forall (runs : list run_inputs) (st : session_state),
    Forall (fun i => match price_sample i with
                     | Some p => is_nan p = false
                     | None => True
                     end) runs ->
    Forall well_formed (candles st) ->
    Forall well_formed (candles (session_after runs st)).
Proof.
  induction runs as [|i runs IH]; intros st Hruns Hst; [exact Hst|].
  inversion Hruns as [|? ? Hi Hrest]; subst.
  unfold session_after in *; simpl. apply IH; [exact Hrest|].
  rewrite run_script_candles. now apply update_candles_well_formed.
Qed.

Lemma candles_well_formed_across_runs_witness :
  Forall well_formed
    (candles (session_after [trading_run; idle_run; trading_run]
                initial_state)).
Proof.
  apply (candles_well_formed_across_runs
           [trading_run; idle_run; trading_run] initial_state).
  - repeat constructor.
  - constructor.
Defined.
